(** * Favorites synchronisation of the Countries app

    A shallow embedding of the Firestore-facing handlers of the React
    Native screens

    - [addCountryToFavorites] and [getCountryFromDB]
      (src/screens/CountryDetailsScreen.js), and
    - [getCountriesFromDB] and [deleteCountryFromFavorites]
      (src/screens/FavoriteCountriesScreen.js),

    together with the part of the world they act on: the user's document
    [favoriteCountries/<uid>] in Firestore, the [useState] cells of the
    two screens, the alerts shown and the errors written to the console.

    The handlers are [async] functions wrapped in [try]/[catch].  They are
    written here in a state-and-exception monad [Async] whose state
    survives a [throw], as the effects made before a JavaScript exception
    do.

    The rest of the app is modelled beside them, each part over its own
    state: signing in and out ([Login]: [loginPressed], [reset],
    [logoutPressed]), the countries list ([CountriesList]:
    [getAllCountries], [rowClicked]) and the loading of the details
    ([Details]: [getCountryDetails]). *)

From Stdlib Require Import List String Bool Arith Lia PrimFloat.
Import ListNotations.
Local Open Scope string_scope.
Local Open Scope list_scope.

(** ** Data *)

(** The object built by [getCountryDetails] (CountryDetailsScreen.js,
    lines 54-61) and handed to [addCountryToFavorites]; the same objects
    come back from Firestore in [docData.countries]. *)
Record Country := mkCountry {
  cca2 : string;
  name : string;
  capital : string;
  flagURL : string;
  latitude : float;
  longitude : float
}.

(** The data of the document [favoriteCountries/<uid>].  The screens only
    ever look at the field [countries], which may be missing
    ([docData.countries] is then [undefined]) and otherwise holds an
    array of country objects, as the app writes it; whatever else the
    document holds is kept in [otherFields], which [updateDoc] preserves
    and [setDoc] drops. *)
Record DocumentData := mkDocumentData {
  countries : option (list Country);
  otherFields : list (string * string)
}.

(** What the Firestore client throws. *)
Inductive Error :=
| Unavailable   (* the request did not go through *)
| NotFound.     (* [updateDoc] on a document that does not exist *)

(** The calls made to Firestore, all on [doc(db, "favoriteCountries",
    auth.currentUser.uid)]. *)
Inductive StoreCall :=
| GetDoc
| SetDoc (cs : list Country)      (* setDoc(ref, { countries: cs }) *)
| UpdateDoc (cs : list Country)   (* updateDoc(ref, { countries: cs }) *)
| DeleteDoc.

(** ** The world

    - [db]: the user's document, [None] when [docSnapshot.exists()] is
      false;
    - [outcomes]: for each coming Firestore call, whether the request
      goes through ([true]) or is rejected; past the end of the list
      every request goes through;
    - [calls]: the Firestore calls made so far, in order;
    - [alerts], [console]: the messages shown with [alert] and the
      errors passed to [console.log];
    - [countryAlreadyAdded]: state of CountryDetailsScreen;
    - [countriesFromDB], [emptyFavoritesFromDB]: state of
      FavoriteCountriesScreen. *)
Record World := mkWorld {
  db : option DocumentData;
  outcomes : list bool;
  calls : list StoreCall;
  alerts : list string;
  console : list Error;
  countryAlreadyAdded : bool;
  countriesFromDB : list Country;
  emptyFavoritesFromDB : bool
}.

Definition with_db (d : option DocumentData) (w : World) : World :=
  mkWorld d (outcomes w) (calls w) (alerts w) (console w)
          (countryAlreadyAdded w) (countriesFromDB w) (emptyFavoritesFromDB w).

Definition with_outcomes (os : list bool) (w : World) : World :=
  mkWorld (db w) os (calls w) (alerts w) (console w)
          (countryAlreadyAdded w) (countriesFromDB w) (emptyFavoritesFromDB w).

Definition with_calls (cl : list StoreCall) (w : World) : World :=
  mkWorld (db w) (outcomes w) cl (alerts w) (console w)
          (countryAlreadyAdded w) (countriesFromDB w) (emptyFavoritesFromDB w).

Definition with_alerts (al : list string) (w : World) : World :=
  mkWorld (db w) (outcomes w) (calls w) al (console w)
          (countryAlreadyAdded w) (countriesFromDB w) (emptyFavoritesFromDB w).

Definition with_console (co : list Error) (w : World) : World :=
  mkWorld (db w) (outcomes w) (calls w) (alerts w) co
          (countryAlreadyAdded w) (countriesFromDB w) (emptyFavoritesFromDB w).

Definition with_countryAlreadyAdded (b : bool) (w : World) : World :=
  mkWorld (db w) (outcomes w) (calls w) (alerts w) (console w)
          b (countriesFromDB w) (emptyFavoritesFromDB w).

Definition with_countriesFromDB (cs : list Country) (w : World) : World :=
  mkWorld (db w) (outcomes w) (calls w) (alerts w) (console w)
          (countryAlreadyAdded w) cs (emptyFavoritesFromDB w).

Definition with_emptyFavoritesFromDB (b : bool) (w : World) : World :=
  mkWorld (db w) (outcomes w) (calls w) (alerts w) (console w)
          (countryAlreadyAdded w) (countriesFromDB w) b.

(** ** The monad of the handlers *)

Inductive Completion (A : Type) :=
| Normal (a : A)
| Throw (e : Error).

Arguments Normal {A} a.
Arguments Throw {A} e.

Definition Async (A : Type) : Type := World -> Completion A * World.

Definition ret {A} (a : A) : Async A := fun w => (Normal a, w).

Definition bind {A B} (m : Async A) (k : A -> Async B) : Async B :=
  fun w =>
    match m w with
    | (Normal a, w1) => k a w1
    | (Throw e, w1) => (Throw e, w1)
    end.

Definition throw {A} (e : Error) : Async A := fun w => (Throw e, w).

(** [try { body } catch (err) { handler }] *)
Definition try_catch {A} (body : Async A) (handler : Error -> Async A) : Async A :=
  fun w =>
    match body w with
    | (Normal a, w1) => (Normal a, w1)
    | (Throw e, w1) => handler e w1
    end.

Declare Scope async_scope.
Delimit Scope async_scope with async.
Notation "x <- m ;; k" := (bind m (fun x => k))
  (at level 100, m at next level, right associativity) : async_scope.
Notation "m ;; k" := (bind m (fun _ => k))
  (at level 100, right associativity) : async_scope.
Local Open Scope async_scope.

(** The world after running a handler. *)
Definition after {A} (m : Async A) (w : World) : World := snd (m w).

(** ** Effects *)

(** [alert(msg)] *)
Definition alert (msg : string) : Async unit :=
  fun w => (Normal tt, with_alerts (alerts w ++ [msg]) w).

(** [console.log(err)] *)
Definition console_log (err : Error) : Async unit :=
  fun w => (Normal tt, with_console (console w ++ [err]) w).

Definition setCountryAlreadyAdded (b : bool) : Async unit :=
  fun w => (Normal tt, with_countryAlreadyAdded b w).

Definition setCountriesFromDB (cs : list Country) : Async unit :=
  fun w => (Normal tt, with_countriesFromDB cs w).

Definition setEmptyFavoritesFromDB (b : bool) : Async unit :=
  fun w => (Normal tt, with_emptyFavoritesFromDB b w).

(** The value of [countriesFromDB] in the closure of the handler: the
    state of the render in which the handler was created. *)
Definition readCountriesFromDB : Async (list Country) :=
  fun w => (Normal (countriesFromDB w), w).

(** Every Firestore call is recorded in [calls] and takes the next
    entry of [outcomes]. *)
Definition request (c : StoreCall) : Async bool :=
  fun w =>
    let w1 := with_calls (calls w ++ [c]) w in
    match outcomes w with
    | [] => (Normal true, w1)
    | o :: os => (Normal o, with_outcomes os w1)
    end.

(** [await getDoc(ref)]: the snapshot, [None] when it does not exist. *)
Definition getDoc : Async (option DocumentData) :=
  ok <- request GetDoc ;;
  if ok : bool then (fun w => (Normal (db w), w)) else throw Unavailable.

(** [await setDoc(ref, { countries: cs })]: the document is replaced as a
    whole (no merge option is given). *)
Definition setDoc (cs : list Country) : Async unit :=
  ok <- request (SetDoc cs) ;;
  if ok : bool
  then (fun w => (Normal tt, with_db (Some (mkDocumentData (Some cs) [])) w))
  else throw Unavailable.

(** [await updateDoc(ref, { countries: cs })]: the field [countries] of
    the existing document is overwritten, its other fields are kept;
    Firestore rejects the update of a document that does not exist. *)
Definition updateDoc (cs : list Country) : Async unit :=
  ok <- request (UpdateDoc cs) ;;
  if ok : bool
  then (fun w =>
          match db w with
          | Some d => (Normal tt, with_db (Some (mkDocumentData (Some cs) (otherFields d))) w)
          | None => (Throw NotFound, w)
          end)
  else throw Unavailable.

(** [await deleteDoc(ref)]: deleting a missing document succeeds. *)
Definition deleteDoc : Async unit :=
  ok <- request DeleteDoc ;;
  if ok : bool then (fun w => (Normal tt, with_db None w)) else throw Unavailable.

(** ** CountryDetailsScreen.js *)

(** [(favCountry) => favCountry.cca2 === country.cca2] *)
Definition sameCca2 (code : string) (favCountry : Country) : bool :=
  String.eqb (cca2 favCountry) code.

(** [addCountryToFavorites], lines 78-139. *)
Definition addCountryToFavorites (country : Country) : Async unit :=
  try_catch
    (docSnapshot <- getDoc ;;
     match docSnapshot with
     | Some docData =>
         let favoriteCountries :=
           match countries docData with
           | Some cs => cs
           | None => []
           end in
         let isCountryAlreadyAdded :=
           find (sameCca2 (cca2 country)) favoriteCountries in
         match isCountryAlreadyAdded with
         | None =>
             let updatedCountries := favoriteCountries ++ [country] in
             setDoc updatedCountries ;;
             setCountryAlreadyAdded true ;;
             alert (name country ++ " has been added to your favorites!")
         | Some _ =>
             alert (name country ++ " is already in your favorites list!")
         end
     | None =>
         let favoriteCountries := [] ++ [country] in
         setDoc favoriteCountries ;;
         setCountryAlreadyAdded true ;;
         alert (name country ++ " has been added to your favorites!")
     end)
    (fun err =>
       alert (name country ++ " could not be added to your favorites! Please try again") ;;
       console_log err).

(** [getCountryFromDB], lines 152-175. *)
Definition getCountryFromDB (code : string) : Async unit :=
  try_catch
    (docSnapshot <- getDoc ;;
     match docSnapshot with
     | Some docData =>
         let favoriteCountries :=
           match countries docData with
           | Some cs => cs
           | None => []
           end in
         let isCountryAlreadyAdded := find (sameCca2 code) favoriteCountries in
         match isCountryAlreadyAdded with
         | Some _ => setCountryAlreadyAdded true
         | None => ret tt
         end
     | None => ret tt
     end)
    (fun err =>
       alert ("Error getting " ++ code ++ " from the database!") ;;
       console_log err).

(** The star of the details screen once the effect of lines 30-34 has
    run on a freshly mounted screen: [countryAlreadyAdded] starts as
    [useState(false)] (line 20) and [getCountryFromDB] is its only
    writer before the first press. *)
Definition queryIsFavorite (code : string) (w : World) : bool :=
  countryAlreadyAdded (after (getCountryFromDB code) (with_countryAlreadyAdded false w)).

(** ** FavoriteCountriesScreen.js *)

(** [getCountriesFromDB], lines 45-61. *)
Definition getCountriesFromDB : Async unit :=
  try_catch
    (countriesSnapshot <- getDoc ;;
     match countriesSnapshot with
     | Some countriesData =>
         match countries countriesData with
         | Some cs =>
             if (0 <? List.length cs)%nat
             then setEmptyFavoritesFromDB false ;; setCountriesFromDB cs
             else ret tt
         | None => ret tt
         end
     | None => ret tt
     end)
    (fun err =>
       alert "Failed to get countries from the database! Please try again" ;;
       console_log err).

(** [(i) => i.cca2 !== country.cca2] *)
Definition otherCca2 (code : string) (i : Country) : bool :=
  negb (String.eqb (cca2 i) code).

(** [deleteCountryFromFavorites], lines 74-114.

    On the update branch the handler calls [getCountriesFromDB()] without
    awaiting it: the refresh sends its [getDoc] at once, but its
    continuation runs only after the handler has shown its alert and
    returned, and its errors are caught by its own [try]/[catch].  The
    [try] block therefore returns whether a refresh was started, and the
    refresh is run after the block. *)
Definition deleteCountryFromFavorites (country : Country) : Async unit :=
  cached <- readCountriesFromDB ;;
  refresh <-
    try_catch
      (let updatedFavoriteCountries := filter (otherCca2 (cca2 country)) cached in
       started <-
         (if (0 <? List.length updatedFavoriteCountries)%nat
          then
            updateDoc updatedFavoriteCountries ;;
            setCountriesFromDB updatedFavoriteCountries ;;
            ret true
          else
            deleteDoc ;;
            setEmptyFavoritesFromDB true ;;
            ret false) ;;
       alert (name country ++ " was deleted from your favorites!") ;;
       ret started)
      (fun err =>
         alert (name country ++ " could not be deleted! Please try again") ;;
         console_log err ;;
         ret false) ;;
  if refresh : bool then getCountriesFromDB else ret tt.

(** ** Vocabulary of the statements *)

(** The codes of a sequence of countries, in order. *)
Definition codes (cs : list Country) : list string := map cca2 cs.

(** The countries sequence of the stored state: empty when there is no
    document or the document has no [countries] field. *)
Definition currentCountries (d : option DocumentData) : list Country :=
  match d with
  | Some doc =>
      match countries doc with
      | Some cs => cs
      | None => []
      end
  | None => []
  end.

(** Whether the [n]-th Firestore call from now on goes through. *)
Definition outcomeAt (n : nat) (w : World) : bool := nth n (outcomes w) true.

(** The Firestore calls, the alerts and the console entries a handler
    adds when run in [w]. *)
Definition issued {A} (m : Async A) (w : World) : list StoreCall :=
  skipn (List.length (calls w)) (calls (after m w)).

Definition shown {A} (m : Async A) (w : World) : list string :=
  skipn (List.length (alerts w)) (alerts (after m w)).

Definition logged {A} (m : Async A) (w : World) : list Error :=
  skipn (List.length (console w)) (console (after m w)).

(** The messages of the alerts, as the template literals of the
    handlers build them. *)
Definition addedMessage (country : Country) : string :=
  name country ++ " has been added to your favorites!".

Definition alreadyAddedMessage (country : Country) : string :=
  name country ++ " is already in your favorites list!".

Definition notAddedMessage (country : Country) : string :=
  name country ++ " could not be added to your favorites! Please try again".

Definition deletedMessage (country : Country) : string :=
  name country ++ " was deleted from your favorites!".

Definition notDeletedMessage (country : Country) : string :=
  name country ++ " could not be deleted! Please try again".

Definition refreshFailedMessage : string :=
  "Failed to get countries from the database! Please try again".

(** A call that changes the store. *)
Definition isWrite (c : StoreCall) : bool :=
  match c with
  | GetDoc => false
  | SetDoc _ | UpdateDoc _ | DeleteDoc => true
  end.

(** The invariant of the stored state: a document that exists has a
    non-empty [countries] sequence. *)
Definition nonEmptyIfPresent (d : option DocumentData) : Prop :=
  forall doc, d = Some doc -> exists c cs, countries doc = Some (c :: cs).

(** What can be seen of one run of a handler: how it completes, the
    stored document it leaves, and the calls, alerts and console entries
    it adds. *)
Definition observation {A} (m : Async A) (w : World)
  : Completion A * option DocumentData * list StoreCall * list string * list Error :=
  (fst (m w), db (after m w), issued m w, shown m w, logged m w).

(** [m] keeps the property [P] of the world. *)
Definition preserves {A} (P : World -> Prop) (m : Async A) : Prop :=
  forall w, P w -> P (after m w).

(** The invariant, as a property of the world. *)
Definition storeInvariant (w : World) : Prop := nonEmptyIfPresent (db w).

(** The client-side state: the [useState] cells of the two screens. *)
Definition screenState (w : World) : bool * list Country * bool :=
  (countryAlreadyAdded w, countriesFromDB w, emptyFavoritesFromDB w).

(** A fresh user on freshly mounted screens: no document, no scheduled
    failure, and the [useState] defaults [false], [[]] and [true]. *)
Definition freshWorld : World :=
  mkWorld None [] [] [] [] false [] true.

(** The same user with a stored document. *)
Definition worldWith (d : DocumentData) : World := with_db (Some d) freshWorld.

Definition US : Country :=
  mkCountry "US" "United States" "Washington, D.C."
            "https://flagcdn.com/w320/us.png" 38.875%float (-77.0625)%float.

Definition CA : Country :=
  mkCountry "CA" "Canada" "Ottawa"
            "https://flagcdn.com/w320/ca.png" 45.4375%float (-75.6875)%float.

Definition MX : Country :=
  mkCountry "MX" "Mexico" "Mexico City"
            "https://flagcdn.com/w320/mx.png" 19.4375%float (-99.125)%float.

(** Stored documents and worlds used as examples. *)
Definition docOf (cs : list Country) : DocumentData := mkDocumentData (Some cs) [].

(** The favorites screen showing [cs], in step with the store. *)
Definition showing (cs : list Country) : World :=
  with_emptyFavoritesFromDB false (with_countriesFromDB cs (worldWith (docOf cs))).

(** The same world with the coming Firestore calls scheduled. *)
Definition scheduled (os : list bool) (w : World) : World := with_outcomes os w.

(** ** What the favorites screen shows

    The JSX of FavoriteCountriesScreen.js, lines 122-157: the empty-state
    view when [emptyFavoritesFromDB] is set, otherwise a [FlatList] over
    [countriesFromDB], one row (with its trash button) per entry. *)
Definition renderedFavorites (w : World) : list Country :=
  if emptyFavoritesFromDB w then [] else countriesFromDB w.

(** No coming Firestore call is scheduled to be rejected. *)
Definition noFailures (w : World) : Prop :=
  Forall (fun o => o = true) (outcomes w).

(** ** Signing in and out (LoginScreen.js, App.js)

    The session as the login screen and the logout buttons see it:
    Firebase's [auth.currentUser], the navigation calls made, the three
    [useState] cells of the login form, the alerts and the console. The
    identity provider is outside the program: what each coming
    [signInWithEmailAndPassword] and [signOut] answers is part of the
    state. *)
Module Login.

Inductive AuthCall :=
| SignIn (email password : string)   (* signInWithEmailAndPassword(auth, email, password) *)
| SignOut.                           (* signOut(auth) *)

Inductive AuthError :=
| SignInRejected
| SignOutRejected.

(** - [currentUser]: the uid of [auth.currentUser], [None] for [null];
    - [signIns]: the answers to the coming sign-in calls, the uid of the
      user signed in or [None] when the call is rejected; past the end of
      the list every call is rejected;
    - [signOuts]: whether the coming sign-out calls go through; past the
      end of the list they do;
    - [authCalls]: the calls made to the provider, in order;
    - [navigated]: the screens passed to [navigation.navigate];
    - [emailFromUI], [passwordFromUI], [loginErrorFromUI]: the form. *)
Record Session := mkSession {
  currentUser : option string;
  signIns : list (option string);
  signOuts : list bool;
  authCalls : list AuthCall;
  navigated : list string;
  emailFromUI : string;
  passwordFromUI : string;
  loginErrorFromUI : string;
  alerts : list string;
  console : list AuthError
}.

(** A freshly started app: nobody signed in, an empty form. *)
Definition started (ins : list (option string)) (outs : list bool) : Session :=
  mkSession None ins outs [] [] "" "" "" [] [].

Definition setEmailFromUI (text : string) (s : Session) : Session :=
  mkSession (currentUser s) (signIns s) (signOuts s) (authCalls s) (navigated s)
            text (passwordFromUI s) (loginErrorFromUI s) (alerts s) (console s).

Definition setPasswordFromUI (text : string) (s : Session) : Session :=
  mkSession (currentUser s) (signIns s) (signOuts s) (authCalls s) (navigated s)
            (emailFromUI s) text (loginErrorFromUI s) (alerts s) (console s).

Definition setLoginErrorFromUI (text : string) (s : Session) : Session :=
  mkSession (currentUser s) (signIns s) (signOuts s) (authCalls s) (navigated s)
            (emailFromUI s) (passwordFromUI s) text (alerts s) (console s).

(** [navigation.navigate(screen)] *)
Definition navigate (screen : string) (s : Session) : Session :=
  mkSession (currentUser s) (signIns s) (signOuts s) (authCalls s)
            (navigated s ++ [screen])
            (emailFromUI s) (passwordFromUI s) (loginErrorFromUI s)
            (alerts s) (console s).

Definition alert (msg : string) (s : Session) : Session :=
  mkSession (currentUser s) (signIns s) (signOuts s) (authCalls s) (navigated s)
            (emailFromUI s) (passwordFromUI s) (loginErrorFromUI s)
            (alerts s ++ [msg]) (console s).

Definition console_log (err : AuthError) (s : Session) : Session :=
  mkSession (currentUser s) (signIns s) (signOuts s) (authCalls s) (navigated s)
            (emailFromUI s) (passwordFromUI s) (loginErrorFromUI s)
            (alerts s) (console s ++ [err]).

(** [await signInWithEmailAndPassword(auth, email, password)]: the call
    is recorded and takes the next answer; when it is granted the user
    becomes [auth.currentUser]. The result says whether it was granted. *)
Definition signInWithEmailAndPassword (email password : string) (s : Session)
  : bool * Session :=
  let made := authCalls s ++ [SignIn email password] in
  match signIns s with
  | Some uid :: rest =>
      (true,
       mkSession (Some uid) rest (signOuts s) made (navigated s)
                 (emailFromUI s) (passwordFromUI s) (loginErrorFromUI s)
                 (alerts s) (console s))
  | None :: rest =>
      (false,
       mkSession (currentUser s) rest (signOuts s) made (navigated s)
                 (emailFromUI s) (passwordFromUI s) (loginErrorFromUI s)
                 (alerts s) (console s))
  | [] =>
      (false,
       mkSession (currentUser s) [] (signOuts s) made (navigated s)
                 (emailFromUI s) (passwordFromUI s) (loginErrorFromUI s)
                 (alerts s) (console s))
  end.

(** [await signOut(auth)]: when it goes through, [auth.currentUser] is
    [null] afterwards. *)
Definition signOut (s : Session) : bool * Session :=
  let made := authCalls s ++ [SignOut] in
  match signOuts s with
  | false :: rest =>
      (false,
       mkSession (currentUser s) (signIns s) rest made (navigated s)
                 (emailFromUI s) (passwordFromUI s) (loginErrorFromUI s)
                 (alerts s) (console s))
  | true :: rest =>
      (true,
       mkSession None (signIns s) rest made (navigated s)
                 (emailFromUI s) (passwordFromUI s) (loginErrorFromUI s)
                 (alerts s) (console s))
  | [] =>
      (true,
       mkSession None (signIns s) [] made (navigated s)
                 (emailFromUI s) (passwordFromUI s) (loginErrorFromUI s)
                 (alerts s) (console s))
  end.

(** [reset], LoginScreen.js lines 45-49. *)
Definition reset (s : Session) : Session :=
  setLoginErrorFromUI "" (setPasswordFromUI "" (setEmailFromUI "" s)).

(** [loginPressed], LoginScreen.js lines 29-38. *)
Definition loginPressed (s : Session) : Session :=
  match signInWithEmailAndPassword (emailFromUI s) (passwordFromUI s) s with
  | (true, s1) => reset (navigate "CountriesTabNavigator" s1)
  | (false, s1) =>
      console_log SignInRejected
        (setLoginErrorFromUI "Error: invalid login! Please try again" s1)
  end.

(** [logoutPressed], App.js lines 36-48. *)
Definition logoutPressed (s : Session) : Session :=
  match currentUser s with
  | None => alert "There is no user to logout!" s
  | Some _ =>
      match signOut s with
      | (true, s1) => navigate "Login" s1
      | (false, s1) =>
          console_log SignOutRejected (alert "Error while logging out!" s1)
      end
  end.

(** The form as the user sees it. *)
Definition form (s : Session) : string * string * string :=
  (emailFromUI s, passwordFromUI s, loginErrorFromUI s).

End Login.

(** ** The countries list (CountriesListScreen.js) *)
Module CountriesList.

(** An entry of the response of
    [/independent?status=true&fields=name,capital,cca2]. *)
Record Listed := mkListed {
  cca2 : string;
  common : string;             (* name.common *)
  capital : list string
}.

(** [countriesFromAPI] and [errorFromAPI] are the [useState] cells of
    the screen; [console] counts the errors logged and [navigated] holds
    the [cca2] parameters passed to [navigate("Details", ...)]. *)
Record Screen := mkScreen {
  countriesFromAPI : list Listed;
  errorFromAPI : bool;
  console : nat;
  navigated : list string
}.

(** The screen as mounted: [useState([])] and [useState(false)]. *)
Definition mounted : Screen := mkScreen [] false 0 [].

Definition setCountriesFromAPI (data : list Listed) (s : Screen) : Screen :=
  mkScreen data (errorFromAPI s) (console s) (navigated s).

Definition setErrorFromAPI (b : bool) (s : Screen) : Screen :=
  mkScreen (countriesFromAPI s) b (console s) (navigated s).

Definition console_log (s : Screen) : Screen :=
  mkScreen (countriesFromAPI s) (errorFromAPI s) (S (console s)) (navigated s).

(** [getAllCountries], lines 45-54. [response] is what [fetch] and
    [response.json()] give, [None] when either of them throws. *)
Definition getAllCountries (response : option (list Listed)) (s : Screen) : Screen :=
  match response with
  | Some data => setCountriesFromAPI data s
  | None => console_log (setErrorFromAPI true s)
  end.

(** The effect of lines 29-34 when the tab gets the focus. *)
Definition focused (response : option (list Listed)) (s : Screen) : Screen :=
  getAllCountries response (setErrorFromAPI false s).

(** [rowClicked], lines 66-68. *)
Definition rowClicked (cca2FromRow : string) (s : Screen) : Screen :=
  mkScreen (countriesFromAPI s) (errorFromAPI s) (console s)
           (navigated s ++ [cca2FromRow]).

(** The rows of the JSX of lines 79-114: none (the "No countries found"
    view) when [errorFromAPI || countriesFromAPI.length === 0]. *)
Definition rendered (s : Screen) : list Listed :=
  if errorFromAPI s || (List.length (countriesFromAPI s) =? 0)%nat
  then []
  else countriesFromAPI s.

End CountriesList.

(** ** Loading the details (CountryDetailsScreen.js, lines 19-67) *)
Module Details.

(** What [getCountryDetails] reads from the first element of the
    response of [/alpha/{cca2}]: [name.common], [capital[0]],
    [flags.png] and the array [capitalInfo.latlng]. The strings are
    taken to be there (a missing one would be [undefined], which a
    [Country] cannot hold). *)
Record Alpha := mkAlpha {
  common : string;
  capital : string;
  png : string;
  latlng : list float
}.

(** [countryDetailsFromAPI] starts as the placeholder [[]] of
    [useState([])], [None] here; [console] counts the errors logged. *)
Record Screen := mkScreen {
  countryDetailsFromAPI : option Country;
  errorFromAPI : bool;
  console : nat
}.

Definition mounted : Screen := mkScreen None false 0.

(** [parseFloat] on a JSON number or on [undefined]: a number goes
    through its decimal string and comes back as it was, except that
    [-0] prints as ["0"]; [undefined] gives [NaN]. *)
Definition parseFloat (x : option float) : float :=
  match x with
  | Some v => if PrimFloat.eqb v PrimFloat.zero then PrimFloat.zero else v
  | None => PrimFloat.nan
  end.

(** [getCountryDetails], lines 44-67. [response] is the first element
    of the parsed array, [None] when [fetch], [response.json()] or one of
    the property accesses throws (no element, no [name], no [capital],
    no [flags], no [capitalInfo.latlng]). *)
Definition getCountryDetails (cca2FromPreviousScreen : string)
           (response : option Alpha) (s : Screen) : Screen :=
  match response with
  | Some data0 =>
      let countryDetails :=
        mkCountry cca2FromPreviousScreen
                  (common data0)
                  (capital data0)
                  (png data0)
                  (parseFloat (nth_error (latlng data0) 0))
                  (parseFloat (nth_error (latlng data0) 1)) in
      mkScreen (Some countryDetails) (errorFromAPI s) (console s)
  | None =>
      mkScreen (countryDetailsFromAPI s) true (S (console s))
  end.

(** The effect of lines 30-34 on the details part of the screen: the
    error is cleared, then the details are fetched. *)
Definition loaded (cca2FromPreviousScreen : string)
           (response : option Alpha) (s : Screen) : Screen :=
  getCountryDetails cca2FromPreviousScreen response
    (mkScreen (countryDetailsFromAPI s) false (console s)).

(** Whether the JSX of lines 188-228 shows the star button: not on the
    error view. *)
Definition starShown (s : Screen) : bool := negb (errorFromAPI s).

End Details.

(** A favorites screen that lists [US; CA] while the store holds
    [US; CA; MX]: its cached list is stale. *)
Definition staleScreen : World :=
  with_emptyFavoritesFromDB false
    (with_countriesFromDB [US; CA] (worldWith (docOf [US; CA; MX]))).

(** The login form with an email and a password typed in. *)
Definition typedLogin (ins : list (option string)) (outs : list bool) : Login.Session :=
  Login.setPasswordFromUI "secret"
    (Login.setEmailFromUI "ana@example.com" (Login.started ins outs)).

(** A response of the details endpoint. *)
Definition mexicoAlpha : Details.Alpha :=
  Details.mkAlpha "Mexico" "Mexico City" "https://flagcdn.com/w320/mx.png"
                  [19.4375%float; (-99.125)%float].

(** ** Facts about [find] and [filter] on country codes *)

Section CodeLists.

Variable code : string.

Lemma sameCca2_true (c : Country) : sameCca2 code c = true <-> cca2 c = code.
Proof. unfold sameCca2. apply String.eqb_eq. Qed.

Lemma otherCca2_true (c : Country) : otherCca2 code c = true <-> cca2 c <> code.
Proof.
  unfold otherCca2. rewrite negb_true_iff. split.
  - intros H E. apply String.eqb_eq in E. congruence.
  - intros H. destruct (String.eqb_spec (cca2 c) code); [contradiction | reflexivity].
Qed.

Lemma otherCca2_false (c : Country) : otherCca2 code c = false <-> cca2 c = code.
Proof.
  unfold otherCca2. rewrite negb_false_iff. apply String.eqb_eq.
Qed.

(** [find] answers [undefined] exactly when no entry carries the code. *)
Lemma find_sameCca2_None (cs : list Country) :
  find (sameCca2 code) cs = None <-> ~ In code (codes cs).
Proof.
  induction cs as [|c cs IH]; simpl.
  - tauto.
  - destruct (sameCca2 code c) eqn:E.
    + apply sameCca2_true in E. split; [discriminate | intros H; exfalso; auto].
    + rewrite IH. split.
      * intros H [H1 | H1]; [| auto].
        apply sameCca2_true in H1. congruence.
      * intros H H1. apply H. now right.
Qed.

Lemma find_sameCca2_Some (cs : list Country) (c : Country) :
  find (sameCca2 code) cs = Some c -> In c cs /\ cca2 c = code.
Proof.
  intros H. apply find_some in H. now rewrite sameCca2_true in H.
Qed.

Lemma find_sameCca2_In (cs : list Country) :
  In code (codes cs) -> exists c, find (sameCca2 code) cs = Some c.
Proof.
  intros H. destruct (find (sameCca2 code) cs) as [c|] eqn:E.
  - now exists c.
  - apply find_sameCca2_None in E. contradiction.
Qed.

Lemma In_codes (cs : list Country) :
  In code (codes cs) <-> exists c, In c cs /\ cca2 c = code.
Proof.
  unfold codes. rewrite in_map_iff. split; intros [c [H1 H2]]; exists c; auto.
Qed.

(** Appending a country with a new code keeps the codes distinct. *)
Lemma NoDup_codes_snoc (cs : list Country) (c : Country) :
  NoDup (codes cs) -> ~ In (cca2 c) (codes cs) -> NoDup (codes (cs ++ [c])).
Proof.
  unfold codes. intros Hnd Hnew. rewrite map_app. simpl.
  induction (map cca2 cs) as [|x xs IH]; simpl.
  - constructor; [tauto | constructor].
  - inversion Hnd as [|? ? Hx Hxs]; subst. constructor.
    + rewrite in_app_iff. simpl. intros [H | [H | []]]; [auto |].
      apply Hnew. left. auto.
    + apply IH; [assumption |]. intros H. apply Hnew. now right.
Qed.

(** Filtering on a code no entry carries changes nothing. *)
Lemma filter_otherCca2_absent (cs : list Country) :
  ~ In code (codes cs) -> filter (otherCca2 code) cs = cs.
Proof.
  induction cs as [|c cs IH]; simpl; intros H; [reflexivity |].
  destruct (otherCca2 code c) eqn:E.
  - f_equal. apply IH. tauto.
  - apply otherCca2_false in E. tauto.
Qed.

(** With distinct codes, filtering takes out one entry and leaves the
    entries before and after it as they were. *)
Lemma filter_otherCca2_split (cs : list Country) :
  NoDup (codes cs) -> In code (codes cs) ->
  exists pre c post,
    cs = pre ++ c :: post /\ cca2 c = code /\
    filter (otherCca2 code) cs = pre ++ post.
Proof.
  induction cs as [|c cs IH]; simpl; intros Hnd Hin; [contradiction |].
  inversion Hnd as [|? ? Hc Hcs]; subst.
  destruct (otherCca2 code c) eqn:E.
  - apply otherCca2_true in E. destruct Hin as [Hin | Hin]; [contradiction |].
    destruct (IH Hcs Hin) as (pre & c0 & post & H1 & H2 & H3).
    exists (c :: pre), c0, post. simpl. rewrite H3. repeat split; congruence.
  - apply otherCca2_false in E. exists [], c, cs. simpl.
    repeat split; [assumption |].
    apply filter_otherCca2_absent. fold (codes cs). congruence.
Qed.

(** An entry with another code survives the filter, so the filtered
    sequence is not empty. *)
Lemma filter_otherCca2_keeps (cs : list Country) (c : Country) :
  In c cs -> cca2 c <> code -> filter (otherCca2 code) cs <> [].
Proof.
  intros Hin Hne Hnil.
  assert (H : In c (filter (otherCca2 code) cs)).
  { apply filter_In. split; [assumption | now apply otherCca2_true]. }
  rewrite Hnil in H. exact H.
Qed.

End CodeLists.

(** Two entries with distinct codes cannot both be filtered out. *)
Lemma filter_otherCca2_two (code : string) (cs : list Country) :
  NoDup (codes cs) -> 2 <= List.length cs -> filter (otherCca2 code) cs <> [].
Proof.
  destruct cs as [|a [|b cs]]; simpl; intros Hnd Hlen; try lia.
  inversion Hnd as [|? ? Ha _]; subst.
  destruct (String.eqb_spec (cca2 a) code) as [Ea | Ea].
  - apply (@filter_otherCca2_keeps code (a :: b :: cs) b); [simpl; auto |].
    intros Eb. apply Ha. left. congruence.
  - apply (@filter_otherCca2_keeps code (a :: b :: cs) a); [simpl; auto | assumption].
Qed.

Lemma length_pos_cons {A} (l : list A) :
  (0 <? List.length l)%nat = true <-> l <> [].
Proof.
  destruct l; simpl; split; intros H; try congruence; try discriminate.
  reflexivity.
Qed.

(** ** Running the handlers *)

Lemma skipn_length_app {A} (l r : list A) : skipn (List.length l) (l ++ r) = r.
Proof. induction l as [|x l IH]; simpl; [reflexivity | exact IH]. Qed.

Lemma skipn_length_app2 {A} (l : list A) (x y : A) :
  skipn (List.length l) ((l ++ [x]) ++ [y]) = [x; y].
Proof. rewrite <- app_assoc. apply skipn_length_app. Qed.

Lemma skipn_length_nil {A} (l : list A) : skipn (List.length l) l = [].
Proof. induction l as [|x l IH]; simpl; [reflexivity | exact IH]. Qed.

Ltac unfold_effects :=
  unfold getDoc, setDoc, updateDoc, deleteDoc, request, alert, console_log,
    setCountryAlreadyAdded, setCountriesFromDB, setEmptyFavoritesFromDB,
    readCountriesFromDB, try_catch, bind, ret, throw in *.

Ltac unfold_world :=
  unfold with_db, with_outcomes, with_calls, with_alerts, with_console,
    with_countryAlreadyAdded, with_countriesFromDB, with_emptyFavoritesFromDB in *.

Ltac unfold_observers :=
  unfold queryIsFavorite, issued, shown, logged, after, outcomeAt in *.

Ltac unfold_handlers :=
  unfold addCountryToFavorites, getCountryFromDB, getCountriesFromDB,
    deleteCountryFromFavorites in *.

(** Open a world into its components and let the handler compute. *)
Ltac open_world w :=
  unfold_observers; unfold_handlers; unfold_effects; unfold_world;
  destruct w as [d os cl al co added cached empty]; simpl in *.

Ltac tidy_logs :=
  repeat rewrite skipn_length_app2;
  repeat rewrite skipn_length_app;
  repeat rewrite skipn_length_nil.

(** *** [getCountryFromDB] *)

(** The query only reads: whatever the outcome of its [getDoc], the
    stored document is as before and [getDoc] is the only call made. *)
Lemma getCountryFromDB_reads_only (code : string) (w : World) :
  db (after (getCountryFromDB code) w) = db w /\
  issued (getCountryFromDB code) w = [GetDoc].
Proof.
  open_world w.
  destruct os as [|[|] os]; simpl;
    try (destruct d as [[[cs|] other]|]; simpl;
         try destruct (find (sameCca2 code) cs); simpl);
    tidy_logs; auto.
Qed.

(** After a read that goes through, the star is filled exactly when
    [find] has found an entry. *)
Lemma queryIsFavorite_find (code : string) (w : World) :
  outcomeAt 0 w = true ->
  queryIsFavorite code w =
  match find (sameCca2 code) (currentCountries (db w)) with
  | Some _ => true
  | None => false
  end.
Proof.
  unfold currentCountries. open_world w. intros Hok.
  destruct os as [|[|] os]; simpl in *; try discriminate;
    destruct d as [[[cs|] other]|]; simpl; try reflexivity;
    destruct (find (sameCca2 code) cs); reflexivity.
Qed.

(** A read that is rejected leaves the star empty. *)
Lemma queryIsFavorite_read_fails (code : string) (w : World) :
  outcomeAt 0 w = false -> queryIsFavorite code w = false.
Proof.
  open_world w. intros Hok.
  destruct os as [|[|] os]; simpl in *; try discriminate. reflexivity.
Qed.

(** C4. queryIsFavorite ([getCountryFromDB] run on a freshly mounted
    details screen, with a read that goes through) answers true if and
    only if the document exists and its [countries] sequence has an
    entry whose code is the one asked for; it answers false when there is
    no document, when [countries] is missing or empty, and when no entry
    has the code; and it writes nothing: the stored document is
    unchanged and the only Firestore call made is [getDoc]. *)
Theorem queryIsFavorite_contract (code : string) (w : World) :
  outcomeAt 0 w = true ->
  (queryIsFavorite code w = true <->
     exists doc cs c,
       db w = Some doc /\ countries doc = Some cs /\ In c cs /\ cca2 c = code) /\
  (db w = None -> queryIsFavorite code w = false) /\
  (forall doc, db w = Some doc ->
     countries doc = None \/ countries doc = Some [] ->
     queryIsFavorite code w = false) /\
  (forall doc cs, db w = Some doc -> countries doc = Some cs ->
     (forall c, In c cs -> cca2 c <> code) ->
     queryIsFavorite code w = false) /\
  db (after (getCountryFromDB code) w) = db w /\
  issued (getCountryFromDB code) w = [GetDoc] /\
  Forall (fun c => isWrite c = false) (issued (getCountryFromDB code) w).
Proof.
  intros Hok. rewrite (queryIsFavorite_find code w Hok).
  destruct (getCountryFromDB_reads_only code w) as [Hdb Hcalls].
  rewrite Hcalls, Hdb. repeat split.
  - destruct (find _ _) as [c|] eqn:E; [intros _ | discriminate].
    apply find_sameCca2_Some in E. destruct E as [Hin Hc].
    unfold currentCountries in Hin.
    destruct (db w) as [doc|]; [| contradiction].
    destruct (countries doc) as [cs|] eqn:Ecs; [| contradiction].
    exists doc, cs, c. auto.
  - intros (doc & cs & c & Hd & Hcs & Hin & Hc).
    unfold currentCountries. rewrite Hd, Hcs.
    destruct (@find_sameCca2_In code cs) as [c' ->]; [| reflexivity].
    apply In_codes. exists c. auto.
  - intros ->. reflexivity.
  - intros doc -> [Hcs | Hcs]; simpl; rewrite Hcs; reflexivity.
  - intros doc cs -> Hcs Hnone. simpl. rewrite Hcs.
    replace (find (sameCca2 code) cs) with (@None Country); [reflexivity |].
    symmetry. apply find_sameCca2_None. rewrite In_codes.
    intros (c & Hin & Hc). exact (Hnone c Hin Hc).
  - repeat constructor.
Qed.

(** *** [addCountryToFavorites]: the four ways it can run *)

(** The read is rejected: the error is caught, reported and logged. *)
Lemma add_run_read_fails (country : Country) (w : World) :
  outcomeAt 0 w = false ->
  addCountryToFavorites country w =
  (Normal tt,
   with_console (console w ++ [Unavailable])
     (with_alerts (alerts w ++ [notAddedMessage country])
        (with_outcomes (skipn 1 (outcomes w))
           (with_calls (calls w ++ [GetDoc]) w)))).
Proof.
  unfold notAddedMessage. open_world w. intros Hread.
  destruct os as [|[|] os]; simpl in *; try discriminate. reflexivity.
Qed.

(** The read goes through and finds the code: only the notice is shown. *)
Lemma add_run_present (country : Country) (w : World) :
  outcomeAt 0 w = true ->
  In (cca2 country) (codes (currentCountries (db w))) ->
  addCountryToFavorites country w =
  (Normal tt,
   with_alerts (alerts w ++ [alreadyAddedMessage country])
     (with_outcomes (skipn 1 (outcomes w))
        (with_calls (calls w ++ [GetDoc]) w))).
Proof.
  unfold alreadyAddedMessage, currentCountries. open_world w. intros Hread Hin.
  destruct d as [[[cs|] other]|]; simpl in Hin; try contradiction.
  destruct (@find_sameCca2_In _ _ Hin) as [c Hc].
  destruct os as [|[|] os]; simpl in *; try discriminate;
    rewrite Hc; reflexivity.
Qed.

(** The read goes through, the code is new and the write goes through. *)
Lemma add_run_new (country : Country) (w : World) :
  outcomeAt 0 w = true -> outcomeAt 1 w = true ->
  ~ In (cca2 country) (codes (currentCountries (db w))) ->
  addCountryToFavorites country w =
  (Normal tt,
   with_alerts (alerts w ++ [addedMessage country])
     (with_countryAlreadyAdded true
        (with_db (Some (mkDocumentData
                          (Some (currentCountries (db w) ++ [country])) []))
           (with_outcomes (skipn 2 (outcomes w))
              (with_calls
                 (calls w ++
                  [GetDoc; SetDoc (currentCountries (db w) ++ [country])])
                 w))))).
Proof.
  unfold addedMessage, currentCountries. open_world w. intros Hread Hwrite Hnew.
  assert (Hfind : forall cs, ~ In (cca2 country) (codes cs) ->
                             find (sameCca2 (cca2 country)) cs = None)
    by (intros cs0; apply find_sameCca2_None).
  destruct os as [|[|] [|[|] os]]; simpl in *; try discriminate;
    destruct d as [[[cs|] other]|]; simpl in *;
    rewrite ?(Hfind _ Hnew); simpl; rewrite <- app_assoc; reflexivity.
Qed.

(** The read goes through, the code is new and the write is rejected. *)
Lemma add_run_write_fails (country : Country) (w : World) :
  outcomeAt 0 w = true -> outcomeAt 1 w = false ->
  ~ In (cca2 country) (codes (currentCountries (db w))) ->
  addCountryToFavorites country w =
  (Normal tt,
   with_console (console w ++ [Unavailable])
     (with_alerts (alerts w ++ [notAddedMessage country])
        (with_outcomes (skipn 2 (outcomes w))
           (with_calls
              (calls w ++
               [GetDoc; SetDoc (currentCountries (db w) ++ [country])])
              w)))).
Proof.
  unfold notAddedMessage, currentCountries. open_world w. intros Hread Hwrite Hnew.
  assert (Hfind : forall cs, ~ In (cca2 country) (codes cs) ->
                             find (sameCca2 (cca2 country)) cs = None)
    by (intros cs0; apply find_sameCca2_None).
  destruct os as [|[|] [|[|] os]]; simpl in *; try discriminate;
    destruct d as [[[cs|] other]|]; simpl in *;
    rewrite ?(Hfind _ Hnew); simpl; rewrite <- app_assoc; reflexivity.
Qed.

(** Whether a code occurs in a sequence can be decided. *)
Lemma In_codes_dec (code : string) (cs : list Country) :
  {In code (codes cs)} + {~ In code (codes cs)}.
Proof. apply in_dec. exact string_dec. Qed.

(** *** [getCountriesFromDB]: the three ways it can run *)

Lemma refresh_run_read_fails (w : World) :
  outcomeAt 0 w = false ->
  getCountriesFromDB w =
  (Normal tt,
   with_console (console w ++ [Unavailable])
     (with_alerts (alerts w ++ [refreshFailedMessage])
        (with_outcomes (skipn 1 (outcomes w))
           (with_calls (calls w ++ [GetDoc]) w)))).
Proof.
  unfold refreshFailedMessage. open_world w. intros Hread.
  destruct os as [|[|] os]; simpl in *; try discriminate. reflexivity.
Qed.

(** A document with at least one country replaces the cached list and
    takes the screen out of its empty state. *)
Lemma refresh_run_populated (w : World) :
  outcomeAt 0 w = true ->
  currentCountries (db w) <> [] ->
  getCountriesFromDB w =
  (Normal tt,
   with_countriesFromDB (currentCountries (db w))
     (with_emptyFavoritesFromDB false
        (with_outcomes (skipn 1 (outcomes w))
           (with_calls (calls w ++ [GetDoc]) w)))).
Proof.
  unfold currentCountries. open_world w. intros Hread Hne.
  destruct d as [[[[|c cs]|] other]|]; simpl in Hne; try congruence.
  destruct os as [|[|] os]; simpl in *; try discriminate; reflexivity.
Qed.

(** No document, no [countries] field or an empty one: the screen state
    is not touched. *)
Lemma refresh_run_nothing (w : World) :
  outcomeAt 0 w = true ->
  currentCountries (db w) = [] ->
  getCountriesFromDB w =
  (Normal tt,
   with_outcomes (skipn 1 (outcomes w)) (with_calls (calls w ++ [GetDoc]) w)).
Proof.
  unfold currentCountries. open_world w. intros Hread Hnil.
  destruct d as [[[[|c cs]|] other]|]; simpl in Hnil; try discriminate;
    destruct os as [|[|] os]; simpl in *; try discriminate; reflexivity.
Qed.

(** *** [deleteCountryFromFavorites]: the five ways it can run *)

(** What the handler keeps of the cached list. *)
Lemma filter_cached_cases (country : Country) (w : World) :
  {filter (otherCca2 (cca2 country)) (countriesFromDB w) = []} +
  {filter (otherCca2 (cca2 country)) (countriesFromDB w) <> []}.
Proof.
  destruct (filter (otherCca2 (cca2 country)) (countriesFromDB w));
    [left; reflexivity | right; discriminate].
Qed.

(** Something is left, the document exists and the update goes through:
    the handler updates the store and the cached list, shows its alert,
    and the refresh it started runs from there. *)
Lemma delete_run_update (country : Country) (w : World) (doc : DocumentData) :
  let updated := filter (otherCca2 (cca2 country)) (countriesFromDB w) in
  updated <> [] -> outcomeAt 0 w = true -> db w = Some doc ->
  deleteCountryFromFavorites country w =
  getCountriesFromDB
    (with_alerts (alerts w ++ [deletedMessage country])
       (with_countriesFromDB updated
          (with_db (Some (mkDocumentData (Some updated) (otherFields doc)))
             (with_outcomes (skipn 1 (outcomes w))
                (with_calls (calls w ++ [UpdateDoc updated]) w))))).
Proof.
  unfold deletedMessage. open_world w. intros Hne Hok Hdoc. subst d.
  destruct (filter (otherCca2 (cca2 country)) cached) as [|c cs]; [congruence |].
  destruct os as [|[|] os]; simpl in *; try discriminate; reflexivity.
Qed.

(** Something is left but the update is rejected. *)
Lemma delete_run_update_rejected (country : Country) (w : World) :
  let updated := filter (otherCca2 (cca2 country)) (countriesFromDB w) in
  updated <> [] -> outcomeAt 0 w = false ->
  deleteCountryFromFavorites country w =
  (Normal tt,
   with_console (console w ++ [Unavailable])
     (with_alerts (alerts w ++ [notDeletedMessage country])
        (with_outcomes (skipn 1 (outcomes w))
           (with_calls (calls w ++ [UpdateDoc updated]) w)))).
Proof.
  unfold notDeletedMessage. open_world w. intros Hne Hok.
  destruct (filter (otherCca2 (cca2 country)) cached) as [|c cs]; [congruence |].
  destruct os as [|[|] os]; simpl in *; try discriminate; reflexivity.
Qed.

(** Something is left but there is no document to update. *)
Lemma delete_run_update_not_found (country : Country) (w : World) :
  let updated := filter (otherCca2 (cca2 country)) (countriesFromDB w) in
  updated <> [] -> outcomeAt 0 w = true -> db w = None ->
  deleteCountryFromFavorites country w =
  (Normal tt,
   with_console (console w ++ [NotFound])
     (with_alerts (alerts w ++ [notDeletedMessage country])
        (with_outcomes (skipn 1 (outcomes w))
           (with_calls (calls w ++ [UpdateDoc updated]) w)))).
Proof.
  unfold notDeletedMessage. open_world w. intros Hne Hok Hdoc. subst d.
  destruct (filter (otherCca2 (cca2 country)) cached) as [|c cs]; [congruence |].
  destruct os as [|[|] os]; simpl in *; try discriminate; reflexivity.
Qed.

(** Nothing is left and the delete goes through. *)
Lemma delete_run_delete (country : Country) (w : World) :
  filter (otherCca2 (cca2 country)) (countriesFromDB w) = [] ->
  outcomeAt 0 w = true ->
  deleteCountryFromFavorites country w =
  (Normal tt,
   with_alerts (alerts w ++ [deletedMessage country])
     (with_emptyFavoritesFromDB true
        (with_db None
           (with_outcomes (skipn 1 (outcomes w))
              (with_calls (calls w ++ [DeleteDoc]) w))))).
Proof.
  unfold deletedMessage. open_world w. intros Hnil Hok. rewrite Hnil.
  destruct os as [|[|] os]; simpl in *; try discriminate; reflexivity.
Qed.

(** Nothing is left but the delete is rejected. *)
Lemma delete_run_delete_rejected (country : Country) (w : World) :
  filter (otherCca2 (cca2 country)) (countriesFromDB w) = [] ->
  outcomeAt 0 w = false ->
  deleteCountryFromFavorites country w =
  (Normal tt,
   with_console (console w ++ [Unavailable])
     (with_alerts (alerts w ++ [notDeletedMessage country])
        (with_outcomes (skipn 1 (outcomes w))
           (with_calls (calls w ++ [DeleteDoc]) w)))).
Proof.
  unfold notDeletedMessage. open_world w. intros Hnil Hok. rewrite Hnil.
  destruct os as [|[|] os]; simpl in *; try discriminate; reflexivity.
Qed.

(** ** The store invariant, effect by effect *)

Lemma preserves_ret {A} (P : World -> Prop) (a : A) : preserves P (ret a).
Proof. intros w H. exact H. Qed.

Lemma preserves_throw {A} (P : World -> Prop) (e : Error) :
  preserves P (@throw A e).
Proof. intros w H. exact H. Qed.

Lemma preserves_bind {A B} (P : World -> Prop) (m : Async A) (k : A -> Async B) :
  preserves P m -> (forall a, preserves P (k a)) -> preserves P (bind m k).
Proof.
  intros Hm Hk w H. specialize (Hm w H). unfold after, bind in *.
  destruct (m w) as [[a | e] w1]; simpl in *.
  - apply (Hk a w1 Hm).
  - exact Hm.
Qed.

Lemma preserves_try_catch {A} (P : World -> Prop)
      (body : Async A) (handler : Error -> Async A) :
  preserves P body -> (forall e, preserves P (handler e)) ->
  preserves P (try_catch body handler).
Proof.
  intros Hb Hh w H. specialize (Hb w H). unfold after, try_catch in *.
  destruct (body w) as [[a | e] w1]; simpl in *.
  - exact Hb.
  - apply (Hh e w1 Hb).
Qed.

(** An effect that does not touch the store keeps the invariant. *)
Lemma preserves_same_db {A} (m : Async A) :
  (forall w, db (after m w) = db w) -> preserves storeInvariant m.
Proof. intros Hdb w H. unfold storeInvariant. rewrite Hdb. exact H. Qed.

Lemma request_same_db (c : StoreCall) (w : World) : db (after (request c) w) = db w.
Proof. unfold after, request. destruct (outcomes w); reflexivity. Qed.

Lemma preserves_alert (msg : string) : preserves storeInvariant (alert msg).
Proof. apply preserves_same_db. reflexivity. Qed.

Lemma preserves_console_log (e : Error) : preserves storeInvariant (console_log e).
Proof. apply preserves_same_db. reflexivity. Qed.

Lemma preserves_setCountryAlreadyAdded (b : bool) :
  preserves storeInvariant (setCountryAlreadyAdded b).
Proof. apply preserves_same_db. reflexivity. Qed.

Lemma preserves_setCountriesFromDB (cs : list Country) :
  preserves storeInvariant (setCountriesFromDB cs).
Proof. apply preserves_same_db. reflexivity. Qed.

Lemma preserves_setEmptyFavoritesFromDB (b : bool) :
  preserves storeInvariant (setEmptyFavoritesFromDB b).
Proof. apply preserves_same_db. reflexivity. Qed.

Lemma preserves_request (c : StoreCall) : preserves storeInvariant (request c).
Proof. apply preserves_same_db. apply request_same_db. Qed.

Lemma preserves_getDoc : preserves storeInvariant getDoc.
Proof.
  unfold getDoc. apply preserves_bind; [apply preserves_request |].
  intros [|]; [intros w H; exact H | apply preserves_throw].
Qed.

(** Writing a non-empty sequence establishes the invariant. *)
Lemma preserves_setDoc (cs : list Country) :
  cs <> [] -> preserves storeInvariant (setDoc cs).
Proof.
  intros Hne. unfold setDoc. apply preserves_bind; [apply preserves_request |].
  intros [|]; [| apply preserves_throw].
  intros w _ doc Hdoc. simpl in Hdoc. injection Hdoc as <-. simpl.
  destruct cs as [|c cs]; [congruence | eauto].
Qed.

Lemma preserves_updateDoc (cs : list Country) :
  cs <> [] -> preserves storeInvariant (updateDoc cs).
Proof.
  intros Hne. unfold updateDoc. apply preserves_bind; [apply preserves_request |].
  intros [|]; [| apply preserves_throw].
  intros w H. unfold after. destruct (db w) as [d|] eqn:Ed; simpl; [| exact H].
  intros doc Hdoc. simpl in Hdoc. injection Hdoc as <-. simpl.
  destruct cs as [|c cs]; [congruence | eauto].
Qed.

(** Deleting the document establishes it too: nothing is left. *)
Lemma preserves_deleteDoc : preserves storeInvariant deleteDoc.
Proof.
  unfold deleteDoc. apply preserves_bind; [apply preserves_request |].
  intros [|]; [| apply preserves_throw].
  intros w _ doc Hdoc. discriminate.
Qed.

Lemma snoc_not_nil {A} (l : list A) (x : A) : l ++ [x] <> [].
Proof. destruct l; discriminate. Qed.

Lemma preserves_addCountryToFavorites (country : Country) :
  preserves storeInvariant (addCountryToFavorites country).
Proof.
  assert (Hadded : forall cs,
             preserves storeInvariant
               (setDoc (cs ++ [country]) ;;
                setCountryAlreadyAdded true ;;
                alert (name country ++ " has been added to your favorites!"))).
  { intros cs.
    apply preserves_bind; [apply preserves_setDoc, snoc_not_nil | intros _].
    apply preserves_bind; [| intros _];
      auto using preserves_setCountryAlreadyAdded, preserves_alert. }
  unfold addCountryToFavorites.
  apply preserves_try_catch.
  - apply preserves_bind; [exact preserves_getDoc |].
    intros [docData |]; [| apply Hadded].
    destruct (find _ _); [apply preserves_alert | apply Hadded].
  - intros e. apply preserves_bind; [| intros _];
      auto using preserves_alert, preserves_console_log.
Qed.

Lemma preserves_getCountriesFromDB : preserves storeInvariant getCountriesFromDB.
Proof.
  unfold getCountriesFromDB.
  apply preserves_try_catch.
  - apply preserves_bind; [exact preserves_getDoc |].
    intros [countriesData |]; [| apply preserves_ret].
    destruct (countries countriesData) as [cs |]; [| apply preserves_ret].
    destruct (0 <? List.length cs)%nat; [| apply preserves_ret].
    apply preserves_bind; [| intros _];
      auto using preserves_setEmptyFavoritesFromDB, preserves_setCountriesFromDB.
  - intros e. apply preserves_bind; [| intros _];
      auto using preserves_alert, preserves_console_log.
Qed.

Lemma preserves_deleteCountryFromFavorites (country : Country) :
  preserves storeInvariant (deleteCountryFromFavorites country).
Proof.
  unfold deleteCountryFromFavorites.
  apply preserves_bind; [intros w H; exact H |].
  intros cached. apply preserves_bind.
  - apply preserves_try_catch.
    + apply preserves_bind.
      * destruct (0 <? List.length _)%nat eqn:E.
        -- apply length_pos_cons in E.
           apply preserves_bind; [now apply preserves_updateDoc | intros _].
           apply preserves_bind; [| intros _];
             auto using preserves_setCountriesFromDB, preserves_ret.
        -- apply preserves_bind; [exact preserves_deleteDoc | intros _].
           apply preserves_bind; [| intros _];
             auto using preserves_setEmptyFavoritesFromDB, preserves_ret.
      * intros started. apply preserves_bind; [| intros _];
          auto using preserves_alert, preserves_ret.
    + intros e. apply preserves_bind; [apply preserves_alert | intros _].
      apply preserves_bind; [| intros _];
        auto using preserves_console_log, preserves_ret.
  - intros [|]; [exact preserves_getCountriesFromDB | apply preserves_ret].
Qed.

(** ** The claims about [addCountryToFavorites] *)

(** After a write of [cs ++ [country]], the query finds [country]. *)
Lemma queryIsFavorite_after_append (country : Country) (cs : list Country)
      (other : list (string * string)) (w : World) :
  db w = Some (mkDocumentData (Some (cs ++ [country])) other) ->
  outcomeAt 0 w = true ->
  queryIsFavorite (cca2 country) w = true.
Proof.
  intros Hdb Hread. rewrite (queryIsFavorite_find _ w Hread), Hdb. simpl.
  destruct (@find_sameCca2_In (cca2 country) (cs ++ [country])) as [c ->];
    [| reflexivity].
  unfold codes. rewrite map_app, in_app_iff. right. now left.
Qed.

(** C1. Whatever the stored state, when the code of [country] does not
    occur in the current countries sequence (empty when there is no
    document or no [countries] field) and the read and the write go
    through, addCountryToFavorites writes, with [setDoc], a document
    whose [countries] is the current sequence with [country] appended at
    the end, and a later queryIsFavorite for that code answers true. *)
Theorem addCountryToFavorites_appends (country : Country) (w : World) :
  ~ In (cca2 country) (codes (currentCountries (db w))) ->
  outcomeAt 0 w = true -> outcomeAt 1 w = true ->
  let w' := after (addCountryToFavorites country) w in
  let updated := currentCountries (db w) ++ [country] in
  issued (addCountryToFavorites country) w = [GetDoc; SetDoc updated] /\
  db w' = Some (mkDocumentData (Some updated) []) /\
  currentCountries (db w') = updated /\
  shown (addCountryToFavorites country) w = [addedMessage country] /\
  countryAlreadyAdded w' = true /\
  (forall w2, db w2 = db w' -> outcomeAt 0 w2 = true ->
              queryIsFavorite (cca2 country) w2 = true).
Proof.
  intros Hnew Hread Hwrite w' updated. subst w'.
  unfold issued, shown, after.
  rewrite (add_run_new country w Hread Hwrite Hnew). simpl.
  repeat split; try apply skipn_length_app.
  intros w2 Hdb Hread2.
  exact (queryIsFavorite_after_append country _ _ w2 Hdb Hread2).
Qed.

(** C2. When the code of [country] already is the code of an entry of
    the stored countries sequence, addCountryToFavorites makes no write:
    the stored document is unchanged whatever the outcome of the read,
    and when the read goes through the handler completes with the
    "already in your favorites list" alert, nothing is caught or logged,
    the star is not touched, and running it again changes nothing
    either. *)
Theorem addCountryToFavorites_already_present (country : Country) (w : World) :
  In (cca2 country) (codes (currentCountries (db w))) ->
  let w' := after (addCountryToFavorites country) w in
  db w' = db w /\
  issued (addCountryToFavorites country) w = [GetDoc] /\
  Forall (fun c => isWrite c = false) (issued (addCountryToFavorites country) w) /\
  (outcomeAt 0 w = true ->
     fst (addCountryToFavorites country w) = Normal tt /\
     shown (addCountryToFavorites country) w = [alreadyAddedMessage country] /\
     logged (addCountryToFavorites country) w = [] /\
     countryAlreadyAdded w' = countryAlreadyAdded w /\
     db (after (addCountryToFavorites country) w') = db w).
Proof.
  intros Hin w'. subst w'.
  assert (Hcalls : db (after (addCountryToFavorites country) w) = db w /\
                   issued (addCountryToFavorites country) w = [GetDoc]).
  { unfold issued, after. destruct (outcomeAt 0 w) eqn:Hread.
    - rewrite (add_run_present country w Hread Hin). simpl.
      split; [reflexivity | apply skipn_length_app].
    - rewrite (add_run_read_fails country w Hread). simpl.
      split; [reflexivity | apply skipn_length_app]. }
  destruct Hcalls as [Hdb Hcalls]. rewrite Hcalls.
  split; [exact Hdb |]. split; [reflexivity |].
  split; [repeat constructor |].
  intros Hread. unfold shown, logged, after in *.
  rewrite (add_run_present country w Hread Hin) in *. simpl.
  repeat split; try apply skipn_length_app; try apply skipn_length_nil.
  set (w1 := with_alerts _ _).
  assert (Hin1 : In (cca2 country) (codes (currentCountries (db w1)))) by exact Hin.
  destruct (outcomeAt 0 w1) eqn:Hread1.
  - rewrite (add_run_present country w1 Hread1 Hin1). reflexivity.
  - rewrite (add_run_read_fails country w1 Hread1). reflexivity.
Qed.

(** C6. When the sequence read has no two entries with the same code,
    every sequence addCountryToFavorites writes has no two entries with
    the same code: a write is made only after [find] has gone through
    the whole sequence without meeting the code, and it writes that
    sequence with the country appended. *)
Theorem addCountryToFavorites_writes_distinct (country : Country) (w : World) :
  NoDup (codes (currentCountries (db w))) ->
  forall cs, In (SetDoc cs) (issued (addCountryToFavorites country) w) ->
    NoDup (codes cs) /\
    cs = currentCountries (db w) ++ [country] /\
    find (sameCca2 (cca2 country)) (currentCountries (db w)) = None.
Proof.
  intros Hnd cs Hset. unfold issued, after in Hset.
  destruct (outcomeAt 0 w) eqn:Hread.
  - destruct (In_codes_dec (cca2 country) (currentCountries (db w))) as [Hin | Hnew].
    + rewrite (add_run_present country w Hread Hin) in Hset. simpl in Hset.
      rewrite skipn_length_app in Hset.
      destruct Hset as [Hset | []]. discriminate.
    + assert (Hcs : cs = currentCountries (db w) ++ [country]).
      { destruct (outcomeAt 1 w) eqn:Hwrite.
        - rewrite (add_run_new country w Hread Hwrite Hnew) in Hset. simpl in Hset.
          rewrite skipn_length_app in Hset.
          destruct Hset as [Hset | [Hset | []]]; congruence.
        - rewrite (add_run_write_fails country w Hread Hwrite Hnew) in Hset.
          simpl in Hset. rewrite skipn_length_app in Hset.
          destruct Hset as [Hset | [Hset | []]]; congruence. }
      subst cs. repeat split.
      * now apply NoDup_codes_snoc.
      * now apply find_sameCca2_None.
  - rewrite (add_run_read_fails country w Hread) in Hset. simpl in Hset.
    rewrite skipn_length_app in Hset.
    destruct Hset as [Hset | []]. discriminate.
Qed.

(** ** The claims about [deleteCountryFromFavorites] and the refresh *)

Lemma nth_skipn_1 (l : list bool) : nth 0 (skipn 1 l) true = nth 1 l true.
Proof. destruct l as [|a [|b l]]; reflexivity. Qed.

(** The calls of the handler start with its write, whichever way it runs,
    and nothing but a read follows. *)
Lemma delete_issued (country : Country) (w : World) :
  let updated := filter (otherCca2 (cca2 country)) (countriesFromDB w) in
  exists rest,
    issued (deleteCountryFromFavorites country) w =
    (if (0 <? List.length updated)%nat then UpdateDoc updated else DeleteDoc) :: rest /\
    Forall (fun c => isWrite c = false) rest.
Proof.
  open_world w.
  destruct (filter (otherCca2 (cca2 country)) cached) as [|c cs]; simpl;
    destruct os as [|[|] [|[|] os]]; simpl;
    try (destruct d as [[[[|c' cs']|] other]|]; simpl);
    tidy_logs; eexists; split; try reflexivity; repeat constructor.
Qed.

(** Every error is caught inside the handlers: they always complete
    normally. *)
Lemma add_completes (country : Country) (w : World) :
  fst (addCountryToFavorites country w) = Normal tt.
Proof.
  open_world w.
  destruct os as [|[|] [|[|] os]]; simpl; try reflexivity;
    destruct d as [[[cs|] other]|]; simpl;
    try destruct (find (sameCca2 (cca2 country)) cs); reflexivity.
Qed.

Lemma refresh_completes (w : World) : fst (getCountriesFromDB w) = Normal tt.
Proof.
  open_world w.
  destruct os as [|[|] os]; simpl; try reflexivity;
    destruct d as [[[[|c cs]|] other]|]; reflexivity.
Qed.

Lemma delete_completes (country : Country) (w : World) :
  fst (deleteCountryFromFavorites country w) = Normal tt.
Proof.
  unfold deleteCountryFromFavorites, bind at 1, readCountriesFromDB.
  unfold bind at 1.
  destruct (try_catch _ _ w) as [[[|] | e] w1] eqn:E.
  - apply refresh_completes.
  - reflexivity.
  - exfalso. revert E. open_world w.
    destruct (filter (otherCca2 (cca2 country)) cached) as [|c cs]; simpl;
      destruct os as [|[|] os]; simpl; try destruct d; simpl; discriminate.
Qed.

(** The update branch when the document exists and the update goes
    through. *)
Lemma delete_update_outcome (country : Country) (w : World) (doc : DocumentData) :
  let updated := filter (otherCca2 (cca2 country)) (countriesFromDB w) in
  let w' := after (deleteCountryFromFavorites country) w in
  updated <> [] -> outcomeAt 0 w = true -> db w = Some doc ->
  db w' = Some (mkDocumentData (Some updated) (otherFields doc)) /\
  countriesFromDB w' = updated /\
  issued (deleteCountryFromFavorites country) w = [UpdateDoc updated; GetDoc] /\
  (exists more, shown (deleteCountryFromFavorites country) w =
                deletedMessage country :: more) /\
  (outcomeAt 1 w = true ->
     emptyFavoritesFromDB w' = false /\
     shown (deleteCountryFromFavorites country) w = [deletedMessage country] /\
     logged (deleteCountryFromFavorites country) w = []).
Proof.
  intros updated w' Hne Hok Hdoc. subst w'. unfold issued, shown, logged, after.
  rewrite (delete_run_update country w doc Hne Hok Hdoc). fold updated.
  set (mid := with_alerts _ _).
  assert (Hmid : currentCountries (db mid) = updated) by reflexivity.
  assert (Hnext : outcomeAt 0 mid = outcomeAt 1 w).
  { unfold outcomeAt, mid. simpl. apply nth_skipn_1. }
  destruct (outcomeAt 1 w) eqn:Hrefresh.
  - rewrite (refresh_run_populated mid Hnext) by (rewrite Hmid; exact Hne).
    rewrite Hmid. simpl. tidy_logs. repeat split; eauto.
  - rewrite (refresh_run_read_fails mid Hnext). simpl.
    rewrite <- !app_assoc. tidy_logs. repeat split; simpl; eauto; discriminate.
Qed.

(** C5. When the cached sequence has at least two entries, all of
    distinct codes, and the code of [country] occurs in it,
    deleteCountryFromFavorites keeps exactly the cached entries with
    another code: the one entry with the code is taken out and the
    entries before and after it stay in order.  The sequence comes from
    the cached list alone (the stored document is arbitrary here and the
    first call made is the write, no read comes before it), it is sent
    with [updateDoc], and when the document exists and the update goes
    through the document is still there, holding that sequence. *)
Theorem deleteCountryFromFavorites_removes_entry (country : Country) (w : World) :
  NoDup (codes (countriesFromDB w)) ->
  2 <= List.length (countriesFromDB w) ->
  In (cca2 country) (codes (countriesFromDB w)) ->
  let w' := after (deleteCountryFromFavorites country) w in
  let updated := filter (otherCca2 (cca2 country)) (countriesFromDB w) in
  (forall c, In c updated <-> In c (countriesFromDB w) /\ cca2 c <> cca2 country) /\
  (exists pre c post,
     countriesFromDB w = pre ++ c :: post /\ cca2 c = cca2 country /\
     updated = pre ++ post) /\
  updated <> [] /\
  (exists rest,
     issued (deleteCountryFromFavorites country) w = UpdateDoc updated :: rest /\
     Forall (fun c => isWrite c = false) rest) /\
  (forall doc, db w = Some doc -> outcomeAt 0 w = true ->
     db w' = Some (mkDocumentData (Some updated) (otherFields doc)) /\
     countriesFromDB w' = updated /\
     issued (deleteCountryFromFavorites country) w = [UpdateDoc updated; GetDoc]).
Proof.
  intros Hnd Hlen Hin w' updated.
  assert (Hne : updated <> []) by now apply filter_otherCca2_two.
  split; [| split; [| split; [exact Hne | split]]].
  - intros c. unfold updated. rewrite filter_In, otherCca2_true. tauto.
  - now apply filter_otherCca2_split.
  - destruct (delete_issued country w) as (rest & Hcalls & Hrest).
    apply length_pos_cons in Hne. fold updated in Hcalls. rewrite Hne in Hcalls.
    exists rest. auto.
  - intros doc Hdoc Hok.
    destruct (delete_update_outcome country w doc Hne Hok Hdoc) as (H1 & H2 & H3 & _).
    auto.
Qed.

(** C8. When the cached sequence is not empty and the code of [country]
    does not occur in it, deleteCountryFromFavorites still writes: the
    filter keeps the whole cached sequence, the handler sends it with
    [updateDoc], and when the document exists and the update goes through
    it shows the same "was deleted from your favorites" alert as for a
    country that was there. *)
Theorem deleteCountryFromFavorites_non_member (country : Country) (w : World) :
  countriesFromDB w <> [] ->
  ~ In (cca2 country) (codes (countriesFromDB w)) ->
  let w' := after (deleteCountryFromFavorites country) w in
  filter (otherCca2 (cca2 country)) (countriesFromDB w) = countriesFromDB w /\
  (exists rest,
     issued (deleteCountryFromFavorites country) w =
     UpdateDoc (countriesFromDB w) :: rest /\
     Forall (fun c => isWrite c = false) rest) /\
  (forall doc, db w = Some doc -> outcomeAt 0 w = true ->
     db w' = Some (mkDocumentData (Some (countriesFromDB w)) (otherFields doc)) /\
     countriesFromDB w' = countriesFromDB w /\
     fst (deleteCountryFromFavorites country w) = Normal tt /\
     (exists more, shown (deleteCountryFromFavorites country) w =
                   deletedMessage country :: more) /\
     (outcomeAt 1 w = true ->
        shown (deleteCountryFromFavorites country) w = [deletedMessage country] /\
        logged (deleteCountryFromFavorites country) w = [])).
Proof.
  intros Hne Hnew w'.
  pose proof (@filter_otherCca2_absent _ _ Hnew) as Hsame.
  split; [exact Hsame | split].
  - destruct (delete_issued country w) as (rest & Hcalls & Hrest).
    rewrite Hsame in Hcalls. apply length_pos_cons in Hne. rewrite Hne in Hcalls.
    exists rest. auto.
  - intros doc Hdoc Hok.
    assert (Hne' : filter (otherCca2 (cca2 country)) (countriesFromDB w) <> [])
      by (rewrite Hsame; exact Hne).
    destruct (delete_update_outcome country w doc Hne' Hok Hdoc)
      as (H1 & H2 & H3 & H4 & H5).
    rewrite Hsame in H1, H2. repeat split; auto.
    + apply delete_completes.
    + apply H5; assumption.
    + apply H5; assumption.
Qed.

(** C3. addCountryToFavorites and deleteCountryFromFavorites keep the
    invariant that a stored document, if there is one, has a non-empty
    [countries] sequence (on every run, so on every successful one); in
    particular, removing the only cached favorite deletes the whole
    document with [deleteDoc]: afterwards a read finds no document and
    queryIsFavorite answers false. *)
Theorem favorites_document_never_empty (country : Country) (w : World) :
  nonEmptyIfPresent (db w) ->
  nonEmptyIfPresent (db (after (addCountryToFavorites country) w)) /\
  nonEmptyIfPresent (db (after (deleteCountryFromFavorites country) w)) /\
  (forall only,
     countriesFromDB w = [only] -> cca2 only = cca2 country ->
     outcomeAt 0 w = true ->
     let w' := after (deleteCountryFromFavorites country) w in
     issued (deleteCountryFromFavorites country) w = [DeleteDoc] /\
     db w' = None /\
     emptyFavoritesFromDB w' = true /\
     shown (deleteCountryFromFavorites country) w = [deletedMessage country] /\
     (forall w2, db w2 = db w' -> outcomeAt 0 w2 = true ->
        fst (getDoc w2) = Normal None /\
        queryIsFavorite (cca2 country) w2 = false)).
Proof.
  intros Hinv. split; [| split].
  - exact (@preserves_addCountryToFavorites country w Hinv).
  - exact (@preserves_deleteCountryFromFavorites country w Hinv).
  - intros only Hcached Hcode Hok w'. subst w'.
    assert (Hnil : filter (otherCca2 (cca2 country)) (countriesFromDB w) = []).
    { rewrite Hcached. simpl.
      replace (otherCca2 (cca2 country) only) with false; [reflexivity |].
      symmetry. now apply otherCca2_false. }
    unfold issued, shown, after.
    rewrite (delete_run_delete country w Hnil Hok). simpl. tidy_logs.
    repeat split.
    + revert H H0. open_world w2. intros -> Hread.
      destruct os as [|[|] os]; simpl in *; try discriminate; reflexivity.
    + rewrite (queryIsFavorite_find _ w2 H0). simpl in H. rewrite H.
      reflexivity.
Qed.

(** C7. A failed store call leaves no partial client-side state.  When
    the read of addCountryToFavorites is rejected, or its write is, the
    state cells of the screens and the stored document are as before and
    the failure alert is shown; the star turns from empty to filled only
    in a run whose read and write went through, after which the store
    holds the written document.  When the [updateDoc] or [deleteDoc] of
    deleteCountryFromFavorites is rejected (or [updateDoc] finds no
    document), the cached list and the empty-state flag are as before. *)
Theorem failed_store_call_leaves_state (country : Country) (w : World) :
  let add := addCountryToFavorites country in
  let del := deleteCountryFromFavorites country in
  let current := currentCountries (db w) in
  let updated := filter (otherCca2 (cca2 country)) (countriesFromDB w) in
  (outcomeAt 0 w = false ->
     screenState (after add w) = screenState w /\ db (after add w) = db w /\
     shown add w = [notAddedMessage country]) /\
  (outcomeAt 0 w = true -> ~ In (cca2 country) (codes current) ->
   outcomeAt 1 w = false ->
     screenState (after add w) = screenState w /\ db (after add w) = db w /\
     shown add w = [notAddedMessage country]) /\
  (countryAlreadyAdded w = false -> countryAlreadyAdded (after add w) = true ->
     outcomeAt 0 w = true /\ outcomeAt 1 w = true /\
     issued add w = [GetDoc; SetDoc (current ++ [country])] /\
     db (after add w) = Some (mkDocumentData (Some (current ++ [country])) [])) /\
  (outcomeAt 0 w = false \/ (db w = None /\ updated <> []) ->
     screenState (after del w) = screenState w /\ db (after del w) = db w /\
     shown del w = [notDeletedMessage country]).
Proof.
  intros add del current updated. subst add del.
  unfold shown, issued, screenState, after.
  split; [| split; [| split]].
  - intros Hread. rewrite (add_run_read_fails country w Hread). simpl.
    tidy_logs. auto.
  - intros Hread Hnew Hwrite.
    rewrite (add_run_write_fails country w Hread Hwrite Hnew). simpl.
    tidy_logs. auto.
  - intros Hbefore Hafter.
    destruct (outcomeAt 0 w) eqn:Hread.
    + destruct (In_codes_dec (cca2 country) current) as [Hin | Hnew].
      * rewrite (add_run_present country w Hread Hin) in Hafter.
        simpl in Hafter. congruence.
      * destruct (outcomeAt 1 w) eqn:Hwrite.
        -- rewrite (add_run_new country w Hread Hwrite Hnew). simpl.
           tidy_logs. auto.
        -- rewrite (add_run_write_fails country w Hread Hwrite Hnew) in Hafter.
           simpl in Hafter. congruence.
    + rewrite (add_run_read_fails country w Hread) in Hafter.
      simpl in Hafter. congruence.
  - intros Hfail.
    destruct (filter_cached_cases country w) as [Hnil | Hne];
      destruct (outcomeAt 0 w) eqn:Hok.
    + destruct Hfail as [Hfail | [_ Hfail]]; [discriminate | contradiction].
    + rewrite (delete_run_delete_rejected country w Hnil Hok). simpl.
      tidy_logs. auto.
    + destruct Hfail as [Hfail | [Hdoc _]]; [discriminate |].
      rewrite (delete_run_update_not_found country w Hne Hok Hdoc). simpl.
      tidy_logs. auto.
    + rewrite (delete_run_update_rejected country w Hne Hok). simpl.
      tidy_logs. auto.
Qed.

(** C9. When the document exists but its [countries] field is missing or
    an empty sequence, the refresh of the favorites list changes neither
    the empty-state flag nor the cached list: a screen in the empty state
    (as a freshly mounted one is) stays in it, and the screen state is
    the one the refresh leaves when there is no document at all. *)
Theorem getCountriesFromDB_empty_document (w : World) (doc : DocumentData) :
  db w = Some doc ->
  countries doc = None \/ countries doc = Some [] ->
  outcomeAt 0 w = true ->
  let w' := after getCountriesFromDB w in
  emptyFavoritesFromDB w' = emptyFavoritesFromDB w /\
  countriesFromDB w' = countriesFromDB w /\
  (emptyFavoritesFromDB w = true -> emptyFavoritesFromDB w' = true) /\
  screenState w' = screenState (after getCountriesFromDB (with_db None w)) /\
  shown getCountriesFromDB w = [] /\
  issued getCountriesFromDB w = [GetDoc].
Proof.
  intros Hdoc Hcs Hread w'. subst w'.
  assert (Hnil : currentCountries (db w) = []).
  { rewrite Hdoc. simpl. destruct Hcs as [-> | ->]; reflexivity. }
  unfold shown, issued, screenState, after.
  rewrite (refresh_run_nothing w Hread Hnil).
  rewrite (refresh_run_nothing (with_db None w) Hread eq_refl). simpl.
  tidy_logs. repeat split; auto.
Qed.

(** C10. addCountryToFavorites and deleteCountryFromFavorites are
    deterministic in the stored state, the country and the outcomes of
    the store calls (and, for the removal, the cached sequence): two runs
    that agree on these, whatever else differs between their worlds,
    complete the same way, leave the same stored document and make the
    same calls, alerts and console entries. *)
Theorem handlers_deterministic (country : Country) (w1 w2 : World) :
  db w1 = db w2 -> outcomes w1 = outcomes w2 ->
  observation (addCountryToFavorites country) w1 =
  observation (addCountryToFavorites country) w2 /\
  (countriesFromDB w1 = countriesFromDB w2 ->
   observation (deleteCountryFromFavorites country) w1 =
   observation (deleteCountryFromFavorites country) w2 /\
   countriesFromDB (after (deleteCountryFromFavorites country) w1) =
   countriesFromDB (after (deleteCountryFromFavorites country) w2)).
Proof.
  intros Hdb Hos. unfold observation. split.
  - unfold_observers. unfold_handlers. unfold_effects. unfold_world.
    destruct w1 as [d1 os1 cl1 al1 co1 added1 cached1 empty1].
    destruct w2 as [d2 os2 cl2 al2 co2 added2 cached2 empty2].
    simpl in *. subst d2 os2.
    destruct os1 as [|[|] [|[|] os]]; simpl;
      try (destruct d1 as [[[cs|] other]|]; simpl;
           try destruct (find (sameCca2 (cca2 country)) cs); simpl);
      tidy_logs; reflexivity.
  - intros Hcached.
    unfold_observers. unfold_handlers. unfold_effects. unfold_world.
    destruct w1 as [d1 os1 cl1 al1 co1 added1 cached1 empty1].
    destruct w2 as [d2 os2 cl2 al2 co2 added2 cached2 empty2].
    simpl in *. subst d2 os2 cached2.
    destruct (filter (otherCca2 (cca2 country)) cached1) as [|c cs]; simpl;
      destruct os1 as [|[|] [|[|] os]]; simpl;
      try (destruct d1 as [[[[|c' cs']|] other]|]; simpl);
      tidy_logs; split; reflexivity.
Qed.

(** ** The theorems at concrete worlds *)

Lemma codes_US_CA_MX_distinct : NoDup (codes [US; CA; MX]).
Proof. repeat constructor; simpl; intuition discriminate. Qed.

Lemma codes_US_CA_distinct : NoDup (codes [US; CA]).
Proof. repeat constructor; simpl; intuition discriminate. Qed.

Lemma MX_not_in_US_CA : ~ In (cca2 MX) (codes [US; CA]).
Proof. simpl. intuition discriminate. Qed.

(** Adding Mexico to the stored [US; CA]. *)
Lemma addCountryToFavorites_appends_witness :
  ~ In (cca2 MX) (codes (currentCountries (db (worldWith (docOf [US; CA]))))) /\
  issued (addCountryToFavorites MX) (worldWith (docOf [US; CA])) =
    [GetDoc; SetDoc [US; CA; MX]] /\
  db (after (addCountryToFavorites MX) (worldWith (docOf [US; CA]))) =
    Some (docOf [US; CA; MX]) /\
  queryIsFavorite "MX" (after (addCountryToFavorites MX) (worldWith (docOf [US; CA])))
    = true.
Proof.
  split; [exact MX_not_in_US_CA |].
  destruct (addCountryToFavorites_appends MX (worldWith (docOf [US; CA]))
              MX_not_in_US_CA eq_refl eq_refl) as (H1 & H2 & _ & _ & _ & H5).
  split; [exact H1 | split; [exact H2 |]].
  apply (H5 _ eq_refl eq_refl).
Defined.

(** Adding Canada again to the stored [US; CA]. *)
Lemma addCountryToFavorites_already_present_witness :
  In (cca2 CA) (codes (currentCountries (db (worldWith (docOf [US; CA]))))) /\
  db (after (addCountryToFavorites CA) (worldWith (docOf [US; CA]))) =
    Some (docOf [US; CA]) /\
  issued (addCountryToFavorites CA) (worldWith (docOf [US; CA])) = [GetDoc] /\
  shown (addCountryToFavorites CA) (worldWith (docOf [US; CA])) =
    ["Canada is already in your favorites list!"].
Proof.
  assert (Hin : In (cca2 CA) (codes (currentCountries (db (worldWith (docOf [US; CA]))))))
    by (simpl; auto).
  split; [exact Hin |].
  destruct (addCountryToFavorites_already_present CA (worldWith (docOf [US; CA])) Hin)
    as (H1 & H2 & _ & H4).
  destruct (H4 eq_refl) as (_ & H5 & _).
  split; [exact H1 | split; [exact H2 | exact H5]].
Defined.

(** Removing the United States, the only favorite. *)
Lemma favorites_document_never_empty_witness :
  nonEmptyIfPresent (db (showing [US])) /\
  nonEmptyIfPresent (db (after (addCountryToFavorites CA) (showing [US]))) /\
  issued (deleteCountryFromFavorites US) (showing [US]) = [DeleteDoc] /\
  db (after (deleteCountryFromFavorites US) (showing [US])) = None /\
  fst (getDoc (after (deleteCountryFromFavorites US) (showing [US]))) = Normal None.
Proof.
  assert (Hinv : nonEmptyIfPresent (db (showing [US]))).
  { intros doc Hdoc. injection Hdoc as <-. exists US, []. reflexivity. }
  split; [exact Hinv |].
  destruct (favorites_document_never_empty US (showing [US]) Hinv) as (_ & _ & H3).
  destruct (H3 US eq_refl eq_refl eq_refl) as (H4 & H5 & _ & _ & H6).
  split; [exact (proj1 (favorites_document_never_empty CA (showing [US]) Hinv)) |].
  split; [exact H4 | split; [exact H5 |]].
  exact (proj1 (H6 _ eq_refl eq_refl)).
Defined.

(** Asking for Canada and for Mexico against the stored [US; CA]. *)
Lemma queryIsFavorite_contract_witness :
  outcomeAt 0 (worldWith (docOf [US; CA])) = true /\
  queryIsFavorite "CA" (worldWith (docOf [US; CA])) = true /\
  queryIsFavorite "MX" (worldWith (docOf [US; CA])) = false /\
  queryIsFavorite "CA" freshWorld = false.
Proof.
  split; [reflexivity |]. split; [| split].
  - apply (proj1 (queryIsFavorite_contract "CA" (worldWith (docOf [US; CA])) eq_refl)).
    exists (docOf [US; CA]), [US; CA], CA. repeat split. simpl. auto.
  - destruct (queryIsFavorite_contract "MX" (worldWith (docOf [US; CA])) eq_refl)
      as (_ & _ & _ & H4 & _).
    apply (H4 (docOf [US; CA]) [US; CA] eq_refl eq_refl).
    simpl. intros c [<- | [<- | []]]; discriminate.
  - destruct (queryIsFavorite_contract "CA" freshWorld eq_refl) as (_ & H2 & _).
    exact (H2 eq_refl).
Defined.

(** Removing Canada from the cached [US; CA; MX]. *)
Lemma deleteCountryFromFavorites_removes_entry_witness :
  NoDup (codes (countriesFromDB (showing [US; CA; MX]))) /\
  2 <= List.length (countriesFromDB (showing [US; CA; MX])) /\
  In (cca2 CA) (codes (countriesFromDB (showing [US; CA; MX]))) /\
  issued (deleteCountryFromFavorites CA) (showing [US; CA; MX]) =
    [UpdateDoc [US; MX]; GetDoc] /\
  db (after (deleteCountryFromFavorites CA) (showing [US; CA; MX])) =
    Some (docOf [US; MX]) /\
  countriesFromDB (after (deleteCountryFromFavorites CA) (showing [US; CA; MX])) =
    [US; MX].
Proof.
  assert (Hlen : 2 <= List.length (countriesFromDB (showing [US; CA; MX])))
    by (simpl; repeat constructor).
  assert (Hin : In (cca2 CA) (codes (countriesFromDB (showing [US; CA; MX]))))
    by (simpl; auto).
  destruct (deleteCountryFromFavorites_removes_entry CA (showing [US; CA; MX])
              codes_US_CA_MX_distinct Hlen Hin) as (_ & _ & _ & _ & H5).
  destruct (H5 (docOf [US; CA; MX]) eq_refl eq_refl) as (H6 & H7 & H8).
  repeat split; try assumption. exact codes_US_CA_MX_distinct.
Defined.

(** The one write made when Mexico is added to the stored [US; CA]. *)
Lemma addCountryToFavorites_writes_distinct_witness :
  NoDup (codes (currentCountries (db (worldWith (docOf [US; CA]))))) /\
  In (SetDoc [US; CA; MX])
     (issued (addCountryToFavorites MX) (worldWith (docOf [US; CA]))) /\
  NoDup (codes [US; CA; MX]).
Proof.
  assert (Hset : In (SetDoc [US; CA; MX])
                    (issued (addCountryToFavorites MX) (worldWith (docOf [US; CA]))))
    by (simpl; auto).
  split; [exact codes_US_CA_distinct | split; [exact Hset |]].
  exact (proj1 (addCountryToFavorites_writes_distinct MX (worldWith (docOf [US; CA]))
                  codes_US_CA_distinct [US; CA; MX] Hset)).
Defined.

(** A rejected read, a rejected write and a run that goes through, when
    Canada is added to the stored [US]; a rejected update when Canada is
    removed from the cached [US; CA]. *)
Lemma failed_store_call_leaves_state_witness :
  (outcomeAt 0 (scheduled [false] (showing [US; CA])) = false /\
   screenState (after (addCountryToFavorites CA) (scheduled [false] (showing [US; CA])))
     = (false, [US; CA], false) /\
   screenState (after (deleteCountryFromFavorites CA) (scheduled [false] (showing [US; CA])))
     = (false, [US; CA], false) /\
   db (after (deleteCountryFromFavorites CA) (scheduled [false] (showing [US; CA])))
     = Some (docOf [US; CA])) /\
  (outcomeAt 1 (scheduled [true; false] (worldWith (docOf [US]))) = false /\
   screenState (after (addCountryToFavorites CA)
                  (scheduled [true; false] (worldWith (docOf [US]))))
     = (false, [], true) /\
   db (after (addCountryToFavorites CA)
         (scheduled [true; false] (worldWith (docOf [US]))))
     = Some (docOf [US])) /\
  (countryAlreadyAdded (after (addCountryToFavorites CA) (worldWith (docOf [US]))) = true /\
   db (after (addCountryToFavorites CA) (worldWith (docOf [US])))
     = Some (docOf [US; CA])).
Proof.
  split; [| split].
  - destruct (failed_store_call_leaves_state CA (scheduled [false] (showing [US; CA])))
      as (H1 & _ & _ & H4).
    destruct (H1 eq_refl) as (H5 & _).
    destruct (H4 (or_introl eq_refl)) as (H6 & H7 & _).
    split; [reflexivity | split; [exact H5 | split; [exact H6 | exact H7]]].
  - destruct (failed_store_call_leaves_state CA
                (scheduled [true; false] (worldWith (docOf [US]))))
      as (_ & H2 & _).
    assert (Hnew : ~ In (cca2 CA) (codes [US])) by (simpl; intuition discriminate).
    destruct (H2 eq_refl Hnew eq_refl) as (H5 & H6 & _).
    split; [reflexivity | split; [exact H5 | exact H6]].
  - destruct (failed_store_call_leaves_state CA (worldWith (docOf [US])))
      as (_ & _ & H3 & _).
    destruct (H3 eq_refl eq_refl) as (_ & _ & _ & H7).
    split; [reflexivity | exact H7].
Defined.

(** Removing Mexico, which is not in the cached [US; CA]. *)
Lemma deleteCountryFromFavorites_non_member_witness :
  countriesFromDB (showing [US; CA]) <> [] /\
  ~ In (cca2 MX) (codes (countriesFromDB (showing [US; CA]))) /\
  issued (deleteCountryFromFavorites MX) (showing [US; CA]) =
    [UpdateDoc [US; CA]; GetDoc] /\
  db (after (deleteCountryFromFavorites MX) (showing [US; CA])) =
    Some (docOf [US; CA]) /\
  shown (deleteCountryFromFavorites MX) (showing [US; CA]) =
    ["Mexico was deleted from your favorites!"].
Proof.
  assert (Hne : countriesFromDB (showing [US; CA]) <> []) by discriminate.
  destruct (deleteCountryFromFavorites_non_member MX (showing [US; CA])
              Hne MX_not_in_US_CA) as (_ & _ & H3).
  destruct (H3 (docOf [US; CA]) eq_refl eq_refl) as (H4 & _ & _ & _ & H5).
  destruct (H5 eq_refl) as (H6 & _).
  split; [exact Hne | split; [exact MX_not_in_US_CA |]].
  split; [reflexivity | split; [exact H4 | exact H6]].
Defined.

(** A document whose [countries] is the empty sequence, read by a
    freshly mounted favorites screen. *)
Lemma getCountriesFromDB_empty_document_witness :
  db (worldWith (docOf [])) = Some (docOf []) /\
  (countries (docOf []) = None \/ countries (docOf []) = Some []) /\
  outcomeAt 0 (worldWith (docOf [])) = true /\
  emptyFavoritesFromDB (after getCountriesFromDB (worldWith (docOf []))) = true /\
  countriesFromDB (after getCountriesFromDB (worldWith (docOf []))) = [] /\
  screenState (after getCountriesFromDB (worldWith (docOf []))) =
  screenState (after getCountriesFromDB freshWorld).
Proof.
  destruct (getCountriesFromDB_empty_document (worldWith (docOf [])) (docOf [])
              eq_refl (or_intror eq_refl) eq_refl) as (H1 & H2 & _ & H4 & _).
  split; [reflexivity | split; [right; reflexivity | split; [reflexivity |]]].
  split; [exact H1 | split; [exact H2 | exact H4]].
Defined.

(** Two details screens over the same stored [US], one with the star
    filled and an alert already shown: removing and adding Canada runs
    the same way in both. *)
Lemma handlers_deterministic_witness :
  db (showing [US]) =
    db (with_alerts ["Welcome"] (with_countryAlreadyAdded true (showing [US]))) /\
  outcomes (showing [US]) =
    outcomes (with_alerts ["Welcome"] (with_countryAlreadyAdded true (showing [US]))) /\
  observation (addCountryToFavorites CA) (showing [US]) =
    observation (addCountryToFavorites CA)
      (with_alerts ["Welcome"] (with_countryAlreadyAdded true (showing [US]))) /\
  observation (deleteCountryFromFavorites US) (showing [US]) =
    observation (deleteCountryFromFavorites US)
      (with_alerts ["Welcome"] (with_countryAlreadyAdded true (showing [US]))).
Proof.
  destruct (handlers_deterministic CA (showing [US])
              (with_alerts ["Welcome"] (with_countryAlreadyAdded true (showing [US])))
              eq_refl eq_refl) as (H1 & _).
  destruct (handlers_deterministic US (showing [US])
              (with_alerts ["Welcome"] (with_countryAlreadyAdded true (showing [US])))
              eq_refl eq_refl) as (_ & H2).
  split; [reflexivity | split; [reflexivity | split; [exact H1 |]]].
  exact (proj1 (H2 eq_refl)).
Defined.

(** ** The scenario of a fresh user

    Star the United States, star it again, then remove it from the
    favorites list the screen has loaded in between. *)

Example scenario_first_add :
  observation (addCountryToFavorites US) freshWorld =
  (Normal tt, Some (docOf [US]), [GetDoc; SetDoc [US]],
   ["United States has been added to your favorites!"], []).
Proof. reflexivity. Qed.

Example scenario_second_add :
  observation (addCountryToFavorites US) (after (addCountryToFavorites US) freshWorld) =
  (Normal tt, Some (docOf [US]), [GetDoc],
   ["United States is already in your favorites list!"], []).
Proof. reflexivity. Qed.

Example scenario_refresh :
  screenState (after getCountriesFromDB (worldWith (docOf [US]))) = (false, [US], false).
Proof. reflexivity. Qed.

Example scenario_remove :
  observation (deleteCountryFromFavorites US) (showing [US]) =
  (Normal tt, None, [DeleteDoc],
   ["United States was deleted from your favorites!"], []).
Proof. reflexivity. Qed.

(** Removing the last favorite leaves the cached list as it was; only
    the empty-state flag hides it. *)
Example scenario_remove_screen :
  screenState (after (deleteCountryFromFavorites US) (showing [US])) = (false, [US], true).
Proof. reflexivity. Qed.

(** [updateDoc] keeps the other fields of the document, [setDoc] does
    not. *)
Example update_keeps_other_fields :
  db (after (deleteCountryFromFavorites CA)
        (with_countriesFromDB [US; CA]
           (worldWith (mkDocumentData (Some [US; CA]) [("theme", "dark")])))) =
  Some (mkDocumentData (Some [US]) [("theme", "dark")]).
Proof. reflexivity. Qed.

Example set_drops_other_fields :
  db (after (addCountryToFavorites CA)
        (worldWith (mkDocumentData (Some [US]) [("theme", "dark")]))) =
  Some (mkDocumentData (Some [US; CA]) []).
Proof. reflexivity. Qed.

(** A stale cache: the document is gone, the screen still lists
    [US; CA]; removing Canada sends an update that Firestore rejects. *)
Example stale_cache_update_not_found :
  observation (deleteCountryFromFavorites CA)
              (with_countriesFromDB [US; CA] freshWorld) =
  (Normal tt, None, [UpdateDoc [US]],
   ["Canada could not be deleted! Please try again"], [NotFound]).
Proof. reflexivity. Qed.

(** A stale cache over a document that exists: the screen lists
    [US; CA] while the store holds [US; CA; MX]; removing Canada writes
    the filtered cache, and Mexico is gone from the store. *)
Example stale_cache_overwrites :
  db (after (deleteCountryFromFavorites CA)
        (with_countriesFromDB [US; CA] (worldWith (docOf [US; CA; MX])))) =
  Some (docOf [US]).
Proof. reflexivity. Qed.

(** ** Beyond the claims: how the handlers compose *)

Lemma noFailures_outcomeAt (n : nat) (w : World) :
  noFailures w -> outcomeAt n w = true.
Proof.
  unfold noFailures, outcomeAt. intros H. revert n.
  induction H as [|o os Ho _ IH]; intros [|n]; simpl; auto.
Qed.

Lemma noFailures_skipn (k : nat) (w : World) (os : list bool) :
  noFailures w -> os = skipn k (outcomes w) ->
  Forall (fun o => o = true) os.
Proof.
  unfold noFailures. intros H ->. revert k.
  induction H as [|o os' Ho Hos IH]; intros [|k]; simpl.
  - constructor.
  - constructor.
  - constructor; assumption.
  - apply IH.
Qed.

(** No entry with the code is left by the filter. *)
Lemma filter_otherCca2_codes (code : string) (cs : list Country) :
  ~ In code (codes (filter (otherCca2 code) cs)).
Proof.
  rewrite In_codes. intros (c & Hin & Hc).
  apply filter_In in Hin. destruct Hin as [_ Hin].
  apply otherCca2_true in Hin. contradiction.
Qed.

(** Filtering out the country just appended gives back a sequence that
    did not hold its code. *)
Lemma filter_otherCca2_snoc (country : Country) (cs : list Country) :
  ~ In (cca2 country) (codes cs) ->
  filter (otherCca2 (cca2 country)) (cs ++ [country]) = cs.
Proof.
  intros Hnew. rewrite filter_app. simpl.
  replace (otherCca2 (cca2 country) country) with false
    by (symmetry; now apply otherCca2_false).
  rewrite app_nil_r. now apply filter_otherCca2_absent.
Qed.

Lemma query_completes (code : string) (w : World) :
  fst (getCountryFromDB code w) = Normal tt.
Proof.
  open_world w.
  destruct os as [|[|] os]; simpl; try reflexivity;
    destruct d as [[[cs|] other]|]; simpl;
    try destruct (find (sameCca2 code) cs); reflexivity.
Qed.

(** The refresh, as the screen shows it. *)
Lemma refresh_rendered (w : World) :
  renderedFavorites (after getCountriesFromDB w) =
  if outcomeAt 0 w
  then match currentCountries (db w) with
       | [] => renderedFavorites w
       | c :: cs => c :: cs
       end
  else renderedFavorites w.
Proof.
  unfold renderedFavorites, after. destruct (outcomeAt 0 w) eqn:Hread.
  - destruct (currentCountries (db w)) as [|c cs] eqn:Hcur.
    + rewrite (refresh_run_nothing w Hread Hcur). reflexivity.
    + rewrite (refresh_run_populated w Hread) by (rewrite Hcur; discriminate).
      simpl. exact Hcur.
  - rewrite (refresh_run_read_fails w Hread). reflexivity.
Qed.

(** The stored sequence after a removal that goes through on an existing
    document. *)
Lemma delete_stored (country : Country) (w : World) (doc : DocumentData) :
  db w = Some doc -> outcomeAt 0 w = true ->
  currentCountries (db (after (deleteCountryFromFavorites country) w)) =
  filter (otherCca2 (cca2 country)) (countriesFromDB w).
Proof.
  intros Hdoc Hok. unfold after.
  destruct (filter_cached_cases country w) as [Hnil | Hne].
  - rewrite (delete_run_delete country w Hnil Hok). simpl. now rewrite Hnil.
  - destruct (delete_update_outcome country w doc Hne Hok Hdoc) as (H1 & _).
    unfold after in H1. rewrite H1. reflexivity.
Qed.

(** What the screen shows after such a removal, when it showed its list
    before. *)
Lemma delete_rendered (country : Country) (w : World) (doc : DocumentData) :
  emptyFavoritesFromDB w = false -> db w = Some doc -> outcomeAt 0 w = true ->
  renderedFavorites (after (deleteCountryFromFavorites country) w) =
  filter (otherCca2 (cca2 country)) (countriesFromDB w).
Proof.
  intros Hshown Hdoc Hok. unfold after.
  destruct (filter_cached_cases country w) as [Hnil | Hne].
  - rewrite (delete_run_delete country w Hnil Hok). simpl. now rewrite Hnil.
  - rewrite (delete_run_update country w doc Hne Hok Hdoc).
    set (mid := with_alerts _ _).
    change (renderedFavorites (after getCountriesFromDB mid) =
            filter (otherCca2 (cca2 country)) (countriesFromDB w)).
    rewrite refresh_rendered.
    assert (Hmid : renderedFavorites mid =
                   filter (otherCca2 (cca2 country)) (countriesFromDB w)).
    { unfold renderedFavorites, mid. simpl. now rewrite Hshown. }
    assert (Hcur : currentCountries (db mid) =
                   filter (otherCca2 (cca2 country)) (countriesFromDB w))
      by reflexivity.
    rewrite Hcur, Hmid.
    destruct (outcomeAt 0 mid); [| reflexivity].
    destruct (filter _ _); reflexivity.
Qed.

(** After a removal whose store call is not rejected, no stored entry
    carries the code. *)
Lemma delete_code_gone (country : Country) (w : World) :
  outcomeAt 0 w = true ->
  ~ In (cca2 country)
       (codes (currentCountries (db (after (deleteCountryFromFavorites country) w)))).
Proof.
  intros Hok. unfold after.
  destruct (filter_cached_cases country w) as [Hnil | Hne].
  - rewrite (delete_run_delete country w Hnil Hok). simpl. tauto.
  - destruct (db w) as [doc|] eqn:Hdoc.
    + destruct (delete_update_outcome country w doc Hne Hok Hdoc) as (H1 & _).
      unfold after in H1. rewrite H1. simpl. apply filter_otherCca2_codes.
    + rewrite (delete_run_update_not_found country w Hne Hok Hdoc). simpl.
      rewrite Hdoc. simpl. tauto.
Qed.

(** X1. After a removal whose store call is not rejected, no stored
    entry carries the code of the removed country, whatever the cached
    list and the store held (several entries with the code, a stale
    cache, no document): a later queryIsFavorite for that code answers
    false. *)
Theorem removed_country_is_not_favorite (country : Country) (w : World) :
  outcomeAt 0 w = true ->
  let w' := after (deleteCountryFromFavorites country) w in
  ~ In (cca2 country) (codes (currentCountries (db w'))) /\
  (forall w2, db w2 = db w' -> outcomeAt 0 w2 = true ->
              queryIsFavorite (cca2 country) w2 = false).
Proof.
  intros Hok w'. subst w'.
  pose proof (delete_code_gone country w Hok) as Hgone.
  split; [exact Hgone |].
  intros w2 Hdb Hread. rewrite (queryIsFavorite_find _ w2 Hread), Hdb.
  apply find_sameCca2_None in Hgone. rewrite Hgone. reflexivity.
Qed.

(** X2. A removal that goes through on an existing document overwrites
    the stored sequence with the filtered cached list, whatever the
    document held: a stored country that the cached list does not hold
    is no longer stored afterwards. *)
Theorem removal_overwrites_store (country : Country) (w : World) (doc : DocumentData) :
  db w = Some doc -> outcomeAt 0 w = true ->
  let w' := after (deleteCountryFromFavorites country) w in
  currentCountries (db w') =
    filter (otherCca2 (cca2 country)) (countriesFromDB w) /\
  (forall c, In c (currentCountries (db w)) -> ~ In c (countriesFromDB w) ->
             ~ In c (currentCountries (db w'))).
Proof.
  intros Hdoc Hok w'. subst w'.
  pose proof (delete_stored country w doc Hdoc Hok) as Hstored.
  split; [exact Hstored |].
  intros c _ Hcache Hin. rewrite Hstored in Hin.
  apply filter_In in Hin. tauto.
Qed.

(** X3. After a removal that goes through, started from a screen that
    shows its list over an existing document, the screen shows exactly
    the sequence the store now holds: the filtered list after an update,
    nothing after the document was deleted (also when the refresh that
    follows the update is rejected). *)
Theorem removal_keeps_screen_in_step (country : Country) (w : World) (doc : DocumentData) :
  emptyFavoritesFromDB w = false -> db w = Some doc -> outcomeAt 0 w = true ->
  let w' := after (deleteCountryFromFavorites country) w in
  renderedFavorites w' = currentCountries (db w') /\
  renderedFavorites w' = filter (otherCca2 (cca2 country)) (countriesFromDB w).
Proof.
  intros Hshown Hdoc Hok w'. subst w'.
  rewrite (delete_stored country w doc Hdoc Hok).
  rewrite (delete_rendered country w doc Hshown Hdoc Hok).
  split; reflexivity.
Qed.

(** X4. When the read goes through and the document holds at least one
    country, the refresh makes the screen show exactly the stored
    sequence, in its stored order: the empty-state flag is cleared, the
    cached list replaced, nothing is written and no alert is shown. *)
Theorem refresh_shows_stored_list (w : World) :
  outcomeAt 0 w = true -> currentCountries (db w) <> [] ->
  let w' := after getCountriesFromDB w in
  renderedFavorites w' = currentCountries (db w) /\
  countriesFromDB w' = currentCountries (db w) /\
  emptyFavoritesFromDB w' = false /\
  db w' = db w /\
  issued getCountriesFromDB w = [GetDoc] /\
  shown getCountriesFromDB w = [].
Proof.
  intros Hread Hne w'. subst w'. unfold renderedFavorites, issued, shown, after.
  rewrite (refresh_run_populated w Hread Hne). simpl. tidy_logs.
  repeat split; reflexivity.
Qed.

(** X5. The refresh never empties the screen: it has no branch that
    sets the empty-state flag or clears the cached list.  A screen that
    shows a list still shows one afterwards, and when the store has
    nothing to show (no document, no [countries] field, an empty one) or
    the read is rejected it shows the same list as before, stale or
    not. *)
Theorem refresh_never_clears (w : World) :
  let w' := after getCountriesFromDB w in
  (renderedFavorites w <> [] -> renderedFavorites w' <> []) /\
  (currentCountries (db w) = [] \/ outcomeAt 0 w = false ->
   renderedFavorites w' = renderedFavorites w) /\
  (emptyFavoritesFromDB w = false -> emptyFavoritesFromDB w' = false).
Proof.
  intros w'. subst w'. rewrite refresh_rendered. split; [| split].
  - intros Hshown. destruct (outcomeAt 0 w); [| exact Hshown].
    destruct (currentCountries (db w)); [exact Hshown | discriminate].
  - intros [Hnil | Hread].
    + rewrite Hnil. destruct (outcomeAt 0 w); reflexivity.
    + rewrite Hread. reflexivity.
  - intros Hflag. unfold after. destruct (outcomeAt 0 w) eqn:Hread.
    + destruct (currentCountries (db w)) as [|c cs] eqn:Hcur.
      * rewrite (refresh_run_nothing w Hread Hcur). exact Hflag.
      * rewrite (refresh_run_populated w Hread) by (rewrite Hcur; discriminate).
        reflexivity.
    + rewrite (refresh_run_read_fails w Hread). exact Hflag.
Qed.

(** The world a successful add of a new country leaves. *)
Lemma add_new_world (country : Country) (w : World) :
  ~ In (cca2 country) (codes (currentCountries (db w))) -> noFailures w ->
  let w1 := after (addCountryToFavorites country) w in
  db w1 = Some (mkDocumentData (Some (currentCountries (db w) ++ [country])) []) /\
  noFailures w1 /\
  screenState w1 = (true, countriesFromDB w, emptyFavoritesFromDB w).
Proof.
  intros Hnew Hall w1. subst w1. unfold after, screenState.
  rewrite (add_run_new country w (noFailures_outcomeAt 0 w Hall)
             (noFailures_outcomeAt 1 w Hall) Hnew).
  simpl. repeat split.
  apply (noFailures_skipn 2 w); [exact Hall | reflexivity].
Qed.

(** The world a refresh leaves over a document that holds countries. *)
Lemma refresh_populated_world (w : World) :
  currentCountries (db w) <> [] -> noFailures w ->
  let w2 := after getCountriesFromDB w in
  db w2 = db w /\ noFailures w2 /\
  countriesFromDB w2 = currentCountries (db w) /\
  emptyFavoritesFromDB w2 = false.
Proof.
  intros Hne Hall w2. subst w2. unfold after.
  rewrite (refresh_run_populated w (noFailures_outcomeAt 0 w Hall) Hne).
  simpl. repeat split.
  apply (noFailures_skipn 1 w); [exact Hall | reflexivity].
Qed.

(** X6. A country added from the details screen shows up last on the
    favorites screen, but only once that screen refreshes: the add
    itself leaves what the favorites screen shows as it was, and when the
    code is new and no store call is rejected, the refresh that follows
    makes the screen show the former stored sequence with the country at
    the end. *)
Theorem added_favorite_shows_last (country : Country) (w : World) :
  ~ In (cca2 country) (codes (currentCountries (db w))) -> noFailures w ->
  renderedFavorites (after (addCountryToFavorites country) w) =
    renderedFavorites w /\
  renderedFavorites
    (after getCountriesFromDB (after (addCountryToFavorites country) w)) =
  currentCountries (db w) ++ [country].
Proof.
  intros Hnew Hall.
  destruct (add_new_world country w Hnew Hall) as (Hdb & Hall1 & Hscreen).
  split.
  - unfold renderedFavorites. unfold screenState in Hscreen.
    injection Hscreen as _ -> ->. reflexivity.
  - rewrite refresh_rendered, (noFailures_outcomeAt 0 _ Hall1), Hdb. simpl.
    destruct (currentCountries (db w) ++ [country]) as [|c cs] eqn:E;
      [| reflexivity].
    now apply snoc_not_nil in E.
Qed.

(** X7. Adding a new country, letting the favorites screen refresh and
    removing the country again gives back the stored sequence of before,
    on the store and on the screen, when no store call is rejected; the
    document itself is deleted when that sequence was empty. *)
Theorem add_refresh_remove_round_trip (country : Country) (w : World) :
  ~ In (cca2 country) (codes (currentCountries (db w))) -> noFailures w ->
  let w3 := after (deleteCountryFromFavorites country)
              (after getCountriesFromDB
                 (after (addCountryToFavorites country) w)) in
  currentCountries (db w3) = currentCountries (db w) /\
  renderedFavorites w3 = currentCountries (db w) /\
  (currentCountries (db w) = [] -> db w3 = None).
Proof.
  intros Hnew Hall w3.
  destruct (add_new_world country w Hnew Hall) as (Hdb1 & Hall1 & _).
  set (w1 := after (addCountryToFavorites country) w) in *.
  assert (Hcur1 : currentCountries (db w1) = currentCountries (db w) ++ [country])
    by (rewrite Hdb1; reflexivity).
  assert (Hne1 : currentCountries (db w1) <> [])
    by (rewrite Hcur1; apply snoc_not_nil).
  destruct (refresh_populated_world w1 Hne1 Hall1) as (Hdb2 & Hall2 & Hcached & Hflag).
  set (w2 := after getCountriesFromDB w1) in *.
  assert (Hfilter : filter (otherCca2 (cca2 country)) (countriesFromDB w2) =
                    currentCountries (db w)).
  { rewrite Hcached, Hcur1. now apply filter_otherCca2_snoc. }
  pose proof (noFailures_outcomeAt 0 w2 Hall2) as Hok.
  rewrite Hdb1 in Hdb2.
  split; [| split].
  - subst w3. rewrite (delete_stored country w2 _ Hdb2 Hok). exact Hfilter.
  - subst w3. rewrite (delete_rendered country w2 _ Hflag Hdb2 Hok). exact Hfilter.
  - intros Hnil. subst w3. unfold after.
    rewrite Hnil in Hfilter.
    rewrite (delete_run_delete country w2 Hfilter Hok). reflexivity.
Qed.

(** X8. Every error is caught inside the four handlers: whatever the
    store holds and whichever calls are rejected, each handler completes
    normally, and it shows at least as many alerts as it writes errors to
    the console, so no failure goes by without a message to the user. *)
Theorem handlers_catch_every_error (country : Country) (code : string) (w : World) :
  fst (addCountryToFavorites country w) = Normal tt /\
  fst (getCountryFromDB code w) = Normal tt /\
  fst (getCountriesFromDB w) = Normal tt /\
  fst (deleteCountryFromFavorites country w) = Normal tt /\
  List.length (logged (addCountryToFavorites country) w)
    <= List.length (shown (addCountryToFavorites country) w) /\
  List.length (logged (getCountryFromDB code) w)
    <= List.length (shown (getCountryFromDB code) w) /\
  List.length (logged getCountriesFromDB w)
    <= List.length (shown getCountriesFromDB w) /\
  List.length (logged (deleteCountryFromFavorites country) w)
    <= List.length (shown (deleteCountryFromFavorites country) w).
Proof.
  split; [apply add_completes |].
  split; [apply query_completes |].
  split; [apply refresh_completes |].
  split; [apply delete_completes |].
  split; [| split; [| split]].
  - open_world w.
    destruct os as [|[|] [|[|] os]]; simpl;
      try (destruct d as [[[cs|] other]|]; simpl;
           try destruct (find (sameCca2 (cca2 country)) cs); simpl);
      tidy_logs; simpl; auto.
  - open_world w.
    destruct os as [|[|] os]; simpl;
      try (destruct d as [[[cs|] other]|]; simpl;
           try destruct (find (sameCca2 code) cs); simpl);
      tidy_logs; simpl; auto.
  - open_world w.
    destruct os as [|[|] os]; simpl;
      try (destruct d as [[[[|c cs]|] other]|]; simpl);
      tidy_logs; simpl; auto.
  - open_world w.
    destruct (filter (otherCca2 (cca2 country)) cached) as [|c cs]; simpl;
      destruct os as [|[|] [|[|] os]]; simpl;
      try (destruct d as [[[[|c' cs']|] other]|]; simpl);
      rewrite <- ?app_assoc; tidy_logs; simpl; auto.
Qed.

(** X9. A rejected read changes nothing but the messages: after
    getCountryFromDB or getCountriesFromDB whose [getDoc] is rejected,
    the state cells of the screens and the stored document are as
    before, the one alert of the handler is shown (naming the code for
    the star query) and the error is written to the console. *)
Theorem rejected_read_changes_nothing (code : string) (w : World) :
  outcomeAt 0 w = false ->
  (screenState (after (getCountryFromDB code) w) = screenState w /\
   db (after (getCountryFromDB code) w) = db w /\
   shown (getCountryFromDB code) w =
     [("Error getting " ++ code ++ " from the database!")%string] /\
   logged (getCountryFromDB code) w = [Unavailable]) /\
  (screenState (after getCountriesFromDB w) = screenState w /\
   db (after getCountriesFromDB w) = db w /\
   shown getCountriesFromDB w = [refreshFailedMessage] /\
   logged getCountriesFromDB w = [Unavailable]).
Proof.
  intros Hread. split.
  - revert Hread. open_world w. intros Hread.
    destruct os as [|[|] os]; simpl in *; try discriminate.
    tidy_logs. repeat split; reflexivity.
  - unfold screenState, shown, logged, after.
    rewrite (refresh_run_read_fails w Hread). simpl. tidy_logs.
    repeat split; reflexivity.
Qed.

(** X10. No handler ever empties the star: once [countryAlreadyAdded]
    is set it stays set through any run of the four handlers.  In
    particular, after a removal that goes through, a details screen that
    is still mounted keeps its star filled although a fresh query for
    the code answers false. *)
Theorem star_is_never_cleared (country : Country) (code : string) (w : World) :
  countryAlreadyAdded w = true ->
  countryAlreadyAdded (after (addCountryToFavorites country) w) = true /\
  countryAlreadyAdded (after (getCountryFromDB code) w) = true /\
  countryAlreadyAdded (after getCountriesFromDB w) = true /\
  countryAlreadyAdded (after (deleteCountryFromFavorites country) w) = true /\
  (outcomeAt 0 w = true ->
   ~ In (cca2 country)
        (codes (currentCountries
                  (db (after (deleteCountryFromFavorites country) w))))).
Proof.
  intros Hstar. split; [| split; [| split; [| split]]].
  - revert Hstar. open_world w. intros ->.
    destruct os as [|[|] [|[|] os]]; simpl; try reflexivity;
      destruct d as [[[cs|] other]|]; simpl;
      try destruct (find (sameCca2 (cca2 country)) cs); reflexivity.
  - revert Hstar. open_world w. intros ->.
    destruct os as [|[|] os]; simpl; try reflexivity;
      destruct d as [[[cs|] other]|]; simpl;
      try destruct (find (sameCca2 code) cs); reflexivity.
  - revert Hstar. open_world w. intros ->.
    destruct os as [|[|] os]; simpl; try reflexivity;
      destruct d as [[[[|c cs]|] other]|]; reflexivity.
  - revert Hstar. open_world w. intros ->.
    destruct (filter (otherCca2 (cca2 country)) cached) as [|c cs]; simpl;
      destruct os as [|[|] [|[|] os]]; simpl; try reflexivity;
      destruct d as [[[[|c' cs']|] other]|]; reflexivity.
  - apply delete_code_gone.
Qed.

(** ** Beyond the claims: signing in and out *)

(** X11. A rejected login keeps what the user typed: the form holds the
    same email and password with the error message under them, nobody is
    signed in anew and no screen is opened; pressing Login again sends
    the very same credentials, and when that call is granted the user is
    signed in, the tab navigator is opened once and the form, error
    message included, is cleared. *)
Theorem failed_login_keeps_form_for_retry
        (s : Login.Session) (uid : string) (rest : list (option string)) :
  Login.signIns s = None :: Some uid :: rest ->
  let s1 := Login.loginPressed s in
  let s2 := Login.loginPressed s1 in
  Login.form s1 =
    (Login.emailFromUI s, Login.passwordFromUI s,
     "Error: invalid login! Please try again") /\
  Login.currentUser s1 = Login.currentUser s /\
  Login.navigated s1 = Login.navigated s /\
  Login.console s1 = Login.console s ++ [Login.SignInRejected] /\
  Login.authCalls s2 =
    Login.authCalls s ++
    [Login.SignIn (Login.emailFromUI s) (Login.passwordFromUI s);
     Login.SignIn (Login.emailFromUI s) (Login.passwordFromUI s)] /\
  Login.currentUser s2 = Some uid /\
  Login.navigated s2 = Login.navigated s ++ ["CountriesTabNavigator"] /\
  Login.form s2 = ("", "", "").
Proof.
  destruct s as [user ins outs made nav email password err al co].
  simpl. intros ->. simpl. rewrite <- app_assoc. repeat split.
Qed.

(** X12. Logging out ends the session once: after a granted login and a
    sign-out that goes through, nobody is signed in and the app is back
    on the Login screen with an empty form; a second press on Logout
    finds no user, makes no call to the provider, opens no screen and
    only shows the "no user" alert. *)
Theorem logout_ends_the_session
        (s : Login.Session) (uid : string) (rest : list (option string)) :
  Login.signIns s = Some uid :: rest ->
  nth 0 (Login.signOuts s) true = true ->
  let s1 := Login.loginPressed s in
  let s2 := Login.logoutPressed s1 in
  let s3 := Login.logoutPressed s2 in
  Login.currentUser s1 = Some uid /\
  Login.currentUser s2 = None /\
  Login.navigated s2 = Login.navigated s ++ ["CountriesTabNavigator"; "Login"] /\
  Login.form s2 = ("", "", "") /\
  Login.alerts s2 = Login.alerts s /\
  Login.currentUser s3 = None /\
  Login.authCalls s3 = Login.authCalls s2 /\
  Login.navigated s3 = Login.navigated s2 /\
  Login.alerts s3 = Login.alerts s2 ++ ["There is no user to logout!"].
Proof.
  destruct s as [user ins outs made nav email password err al co].
  simpl. intros -> Hout.
  destruct outs as [|[|] outs]; simpl in *; try discriminate;
    rewrite <- app_assoc; repeat split.
Qed.

(** X13. A rejected sign-out keeps the session: the user stays signed
    in, no screen is opened, the error alert is shown and the error
    logged; a second press, when its call goes through, signs the user
    out and opens the Login screen. *)
Theorem failed_logout_keeps_session
        (s : Login.Session) (uid : string) (outs : list bool) :
  Login.currentUser s = Some uid ->
  Login.signOuts s = false :: outs ->
  nth 0 outs true = true ->
  let s1 := Login.logoutPressed s in
  let s2 := Login.logoutPressed s1 in
  Login.currentUser s1 = Some uid /\
  Login.navigated s1 = Login.navigated s /\
  Login.alerts s1 = Login.alerts s ++ ["Error while logging out!"] /\
  Login.console s1 = Login.console s ++ [Login.SignOutRejected] /\
  Login.currentUser s2 = None /\
  Login.navigated s2 = Login.navigated s ++ ["Login"] /\
  Login.authCalls s2 = Login.authCalls s ++ [Login.SignOut; Login.SignOut] /\
  Login.alerts s2 = Login.alerts s1.
Proof.
  destruct s as [user ins outs0 made nav email password err al co].
  simpl. intros -> -> Hout.
  destruct outs as [|[|] outs]; simpl in *; try discriminate;
    rewrite <- app_assoc; repeat split.
Qed.

(** ** Beyond the claims: the list and the details *)

(** X14. What the countries list shows after it got the focus depends
    on the response of that focus alone: the countries of the response
    when the fetch went through, the "No countries found" view when it
    failed, whatever was shown or had failed before.  A failed fetch
    keeps the earlier list in its state cell but hides it. *)
Theorem list_shows_latest_response
        (response : option (list CountriesList.Listed)) (s : CountriesList.Screen) :
  CountriesList.rendered (CountriesList.focused response s) =
    match response with
    | Some data => data
    | None => []
    end /\
  CountriesList.errorFromAPI (CountriesList.focused response s) =
    match response with
    | Some _ => false
    | None => true
    end /\
  CountriesList.countriesFromAPI (CountriesList.focused None s) =
    CountriesList.countriesFromAPI s.
Proof.
  destruct s as [listed err co nav].
  destruct response as [[|c data]|]; repeat split.
Qed.

(** X15. The object the details screen loads carries the code of the
    route, not one read from the response: whatever the response holds,
    the country handed to addCountryToFavorites has the code that
    getCountryFromDB asks for, so once it has been added (its code being
    new and no store call rejected) the star query of that screen answers
    true. *)
Theorem details_carry_route_code
        (code : string) (response : Details.Alpha) (s : Details.Screen) :
  exists country,
    Details.countryDetailsFromAPI (Details.loaded code (Some response) s)
      = Some country /\
    cca2 country = code /\
    name country = Details.common response /\
    capital country = Details.capital response /\
    Details.starShown (Details.loaded code (Some response) s) = true /\
    (forall w, ~ In code (codes (currentCountries (db w))) -> noFailures w ->
       queryIsFavorite code (after (addCountryToFavorites country) w) = true).
Proof.
  eexists. split; [reflexivity |]. simpl. repeat split.
  intros w Hnew Hall.
  set (country := mkCountry code _ _ _ _ _).
  destruct (add_new_world country w Hnew Hall) as (Hdb & Hall1 & _).
  exact (queryIsFavorite_after_append country _ _ _ Hdb
           (noFailures_outcomeAt 0 _ Hall1)).
Qed.

(** The edges of loading the details.  When the fetch fails the
    error view replaces the details and the star button with it, the
    error is logged once and the details loaded earlier are kept; when
    the response has no coordinates the details are loaded all the same,
    without an error, with NaN for latitude and longitude. *)
Theorem details_load_edges (code : string) (s : Details.Screen) :
  (Details.starShown (Details.loaded code None s) = false /\
   Details.countryDetailsFromAPI (Details.loaded code None s)
     = Details.countryDetailsFromAPI s /\
   Details.console (Details.loaded code None s) = S (Details.console s)) /\
  (forall common capital png,
     Details.loaded code (Some (Details.mkAlpha common capital png [])) s =
     Details.mkScreen
       (Some (mkCountry code common capital png PrimFloat.nan PrimFloat.nan))
       false (Details.console s)).
Proof.
  destruct s as [details err co]. repeat split.
Qed.

(** X16. The add replaces the document and the removal updates it: when
    no store call is rejected, a document written by
    addCountryToFavorites holds the [countries] field and nothing else,
    whatever other fields it had, while a document updated by
    deleteCountryFromFavorites keeps every other field it had. *)
Theorem add_replaces_remove_updates
        (country : Country) (w : World) (doc : DocumentData) :
  db w = Some doc -> noFailures w ->
  (~ In (cca2 country) (codes (currentCountries (db w))) ->
   db (after (addCountryToFavorites country) w) =
   Some (mkDocumentData (Some (currentCountries (db w) ++ [country])) [])) /\
  (filter (otherCca2 (cca2 country)) (countriesFromDB w) <> [] ->
   db (after (deleteCountryFromFavorites country) w) =
   Some (mkDocumentData
           (Some (filter (otherCca2 (cca2 country)) (countriesFromDB w)))
           (otherFields doc))).
Proof.
  intros Hdoc Hall. split.
  - intros Hnew. exact (proj1 (add_new_world country w Hnew Hall)).
  - intros Hne.
    exact (proj1 (delete_update_outcome country w doc Hne
                    (noFailures_outcomeAt 0 w Hall) Hdoc)).
Qed.

(** ** The further theorems at concrete worlds *)

Lemma fresh_noFailures (d : DocumentData) : noFailures (worldWith d).
Proof. constructor. Qed.

(** Removing Canada from [US; CA], then asking for it. *)
Lemma removed_country_is_not_favorite_witness :
  outcomeAt 0 (showing [US; CA]) = true /\
  queryIsFavorite "CA" (showing [US; CA]) = true /\
  queryIsFavorite "CA" (after (deleteCountryFromFavorites CA) (showing [US; CA]))
    = false.
Proof.
  split; [reflexivity | split; [reflexivity |]].
  destruct (removed_country_is_not_favorite CA (showing [US; CA]) eq_refl)
    as [_ H].
  exact (H _ eq_refl eq_refl).
Defined.

(** Removing Canada on the stale screen: Mexico, stored but not listed,
    is gone from the store. *)
Lemma removal_overwrites_store_witness :
  db staleScreen = Some (docOf [US; CA; MX]) /\
  outcomeAt 0 staleScreen = true /\
  In MX (currentCountries (db staleScreen)) /\
  currentCountries (db (after (deleteCountryFromFavorites CA) staleScreen)) = [US] /\
  ~ In MX (currentCountries (db (after (deleteCountryFromFavorites CA) staleScreen))).
Proof.
  destruct (removal_overwrites_store CA staleScreen (docOf [US; CA; MX])
              eq_refl eq_refl) as [H1 H2].
  assert (Hin : In MX (currentCountries (db staleScreen))) by (simpl; auto).
  assert (Hout : ~ In MX (countriesFromDB staleScreen)).
  { simpl. intros [H | [H | []]]; discriminate. }
  split; [reflexivity | split; [reflexivity | split; [exact Hin |]]].
  split; [exact H1 | exact (H2 MX Hin Hout)].
Defined.

(** Removing Canada from the shown [US; CA; MX]. *)
Lemma removal_keeps_screen_in_step_witness :
  emptyFavoritesFromDB (showing [US; CA; MX]) = false /\
  renderedFavorites (after (deleteCountryFromFavorites CA) (showing [US; CA; MX]))
    = [US; MX] /\
  currentCountries (db (after (deleteCountryFromFavorites CA) (showing [US; CA; MX])))
    = [US; MX].
Proof.
  destruct (removal_keeps_screen_in_step CA (showing [US; CA; MX])
              (docOf [US; CA; MX]) eq_refl eq_refl eq_refl) as [H1 H2].
  split; [reflexivity | split; [exact H2 |]].
  rewrite <- H1. exact H2.
Defined.

(** A freshly mounted favorites screen over the stored [US; CA]. *)
Lemma refresh_shows_stored_list_witness :
  outcomeAt 0 (worldWith (docOf [US; CA])) = true /\
  currentCountries (db (worldWith (docOf [US; CA]))) <> [] /\
  renderedFavorites (worldWith (docOf [US; CA])) = [] /\
  renderedFavorites (after getCountriesFromDB (worldWith (docOf [US; CA])))
    = [US; CA].
Proof.
  assert (Hne : currentCountries (db (worldWith (docOf [US; CA]))) <> [])
    by discriminate.
  split; [reflexivity | split; [exact Hne | split; [reflexivity |]]].
  exact (proj1 (refresh_shows_stored_list (worldWith (docOf [US; CA])) eq_refl Hne)).
Defined.

(** A screen that lists [US] after the document was deleted elsewhere. *)
Lemma refresh_never_clears_witness :
  renderedFavorites (with_db None (showing [US])) <> [] /\
  currentCountries (db (with_db None (showing [US]))) = [] /\
  renderedFavorites (after getCountriesFromDB (with_db None (showing [US]))) = [US].
Proof.
  destruct (refresh_never_clears (with_db None (showing [US]))) as (_ & H2 & _).
  split; [discriminate | split; [reflexivity |]].
  exact (H2 (or_introl eq_refl)).
Defined.

(** Adding Mexico to the stored [US; CA], then the refresh. *)
Lemma added_favorite_shows_last_witness :
  ~ In (cca2 MX) (codes (currentCountries (db (worldWith (docOf [US; CA]))))) /\
  noFailures (worldWith (docOf [US; CA])) /\
  renderedFavorites
    (after getCountriesFromDB
       (after (addCountryToFavorites MX) (worldWith (docOf [US; CA]))))
    = [US; CA; MX].
Proof.
  split; [exact MX_not_in_US_CA | split; [apply fresh_noFailures |]].
  exact (proj2 (added_favorite_shows_last MX (worldWith (docOf [US; CA]))
                  MX_not_in_US_CA (fresh_noFailures _))).
Defined.

(** Adding Mexico to the stored [US; CA], the refresh, removing Mexico. *)
Lemma add_refresh_remove_round_trip_witness :
  ~ In (cca2 MX) (codes (currentCountries (db (worldWith (docOf [US; CA]))))) /\
  noFailures (worldWith (docOf [US; CA])) /\
  currentCountries
    (db (after (deleteCountryFromFavorites MX)
           (after getCountriesFromDB
              (after (addCountryToFavorites MX) (worldWith (docOf [US; CA]))))))
    = [US; CA].
Proof.
  split; [exact MX_not_in_US_CA | split; [apply fresh_noFailures |]].
  exact (proj1 (add_refresh_remove_round_trip MX (worldWith (docOf [US; CA]))
                  MX_not_in_US_CA (fresh_noFailures _))).
Defined.

(** A rejected read on both reading handlers. *)
Lemma rejected_read_changes_nothing_witness :
  outcomeAt 0 (scheduled [false] (showing [US])) = false /\
  screenState (after (getCountryFromDB "US") (scheduled [false] (showing [US])))
    = (false, [US], false) /\
  shown (getCountryFromDB "US") (scheduled [false] (showing [US]))
    = ["Error getting US from the database!"] /\
  screenState (after getCountriesFromDB (scheduled [false] (showing [US])))
    = (false, [US], false).
Proof.
  destruct (rejected_read_changes_nothing "US" (scheduled [false] (showing [US]))
              eq_refl) as [(H1 & _ & H3 & _) (H5 & _)].
  split; [reflexivity | split; [exact H1 | split; [exact H3 | exact H5]]].
Defined.

(** A filled star over the shown [US], then the removal of [US]. *)
Lemma star_is_never_cleared_witness :
  countryAlreadyAdded (with_countryAlreadyAdded true (showing [US])) = true /\
  countryAlreadyAdded
    (after (deleteCountryFromFavorites US)
       (with_countryAlreadyAdded true (showing [US]))) = true /\
  db (after (deleteCountryFromFavorites US)
        (with_countryAlreadyAdded true (showing [US]))) = None.
Proof.
  destruct (star_is_never_cleared US "US"
              (with_countryAlreadyAdded true (showing [US])) eq_refl)
    as (_ & _ & _ & H4 & _).
  split; [reflexivity | split; [exact H4 | reflexivity]].
Defined.

(** A rejected login followed by a granted one. *)
Lemma failed_login_keeps_form_for_retry_witness :
  Login.signIns (typedLogin [None; Some "uid-1"] []) = [None; Some "uid-1"] /\
  Login.form (Login.loginPressed (typedLogin [None; Some "uid-1"] [])) =
    ("ana@example.com", "secret", "Error: invalid login! Please try again") /\
  Login.currentUser
    (Login.loginPressed (Login.loginPressed (typedLogin [None; Some "uid-1"] [])))
    = Some "uid-1" /\
  Login.form
    (Login.loginPressed (Login.loginPressed (typedLogin [None; Some "uid-1"] [])))
    = ("", "", "").
Proof.
  destruct (failed_login_keeps_form_for_retry
              (typedLogin [None; Some "uid-1"] []) "uid-1" [] eq_refl)
    as (H1 & _ & _ & _ & _ & H6 & _ & H8).
  split; [reflexivity | split; [exact H1 | split; [exact H6 | exact H8]]].
Defined.

(** A granted login, a logout, and a second press on Logout. *)
Lemma logout_ends_the_session_witness :
  Login.signIns (typedLogin [Some "uid-1"] []) = [Some "uid-1"] /\
  nth 0 (Login.signOuts (typedLogin [Some "uid-1"] [])) true = true /\
  Login.navigated
    (Login.logoutPressed (Login.loginPressed (typedLogin [Some "uid-1"] [])))
    = ["CountriesTabNavigator"; "Login"] /\
  Login.alerts
    (Login.logoutPressed
       (Login.logoutPressed (Login.loginPressed (typedLogin [Some "uid-1"] []))))
    = ["There is no user to logout!"].
Proof.
  destruct (logout_ends_the_session (typedLogin [Some "uid-1"] []) "uid-1" []
              eq_refl eq_refl)
    as (_ & _ & H3 & _ & _ & _ & _ & _ & H9).
  split; [reflexivity | split; [reflexivity | split; [exact H3 | exact H9]]].
Defined.

(** A rejected sign-out followed by one that goes through. *)
Lemma failed_logout_keeps_session_witness :
  Login.currentUser (Login.loginPressed (typedLogin [Some "uid-1"] [false]))
    = Some "uid-1" /\
  Login.signOuts (Login.loginPressed (typedLogin [Some "uid-1"] [false])) = [false] /\
  Login.currentUser
    (Login.logoutPressed (Login.loginPressed (typedLogin [Some "uid-1"] [false])))
    = Some "uid-1" /\
  Login.currentUser
    (Login.logoutPressed
       (Login.logoutPressed (Login.loginPressed (typedLogin [Some "uid-1"] [false]))))
    = None.
Proof.
  destruct (failed_logout_keeps_session
              (Login.loginPressed (typedLogin [Some "uid-1"] [false])) "uid-1" []
              eq_refl eq_refl eq_refl)
    as (H1 & _ & _ & _ & H5 & _).
  split; [reflexivity | split; [reflexivity | split; [exact H1 | exact H5]]].
Defined.

(** The details of Mexico loaded under the route code ["MX"], then
    added to the stored [US; CA]. *)
Lemma details_carry_route_code_witness :
  exists country,
    Details.countryDetailsFromAPI (Details.loaded "MX" (Some mexicoAlpha) Details.mounted)
      = Some country /\
    country = MX /\
    queryIsFavorite "MX"
      (after (addCountryToFavorites country) (worldWith (docOf [US; CA]))) = true.
Proof.
  destruct (details_carry_route_code "MX" mexicoAlpha Details.mounted)
    as (country & H1 & _ & _ & _ & _ & H6).
  exists country. split; [exact H1 | split].
  - simpl in H1. injection H1 as <-. reflexivity.
  - apply H6; [exact MX_not_in_US_CA | apply fresh_noFailures].
Defined.

(** Adding Canada to, and removing it from, a document that has another
    field. *)
Lemma add_replaces_remove_updates_witness :
  db (after (addCountryToFavorites CA)
        (worldWith (mkDocumentData (Some [US]) [("theme", "dark")]))) =
    Some (mkDocumentData (Some [US; CA]) []) /\
  db (after (deleteCountryFromFavorites CA)
        (with_countriesFromDB [US; CA]
           (worldWith (mkDocumentData (Some [US; CA]) [("theme", "dark")])))) =
    Some (mkDocumentData (Some [US]) [("theme", "dark")]).
Proof.
  split.
  - apply (proj1 (add_replaces_remove_updates CA
                    (worldWith (mkDocumentData (Some [US]) [("theme", "dark")]))
                    (mkDocumentData (Some [US]) [("theme", "dark")])
                    eq_refl (fresh_noFailures _))).
    simpl. intuition discriminate.
  - apply (proj2 (add_replaces_remove_updates CA
                    (with_countriesFromDB [US; CA]
                       (worldWith (mkDocumentData (Some [US; CA]) [("theme", "dark")])))
                    (mkDocumentData (Some [US; CA]) [("theme", "dark")])
                    eq_refl (fresh_noFailures _))).
    discriminate.
Defined.
